(** * Verification of the classification engine of [sejong_data_processor.py]

    Shallow embedding of [SejongApartmentClassifier]: the three classifiers
    [classify_village], [classify_price_range], [classify_area_type] and the
    aggregation [process_data].

    Modelling choices:
    - a Python [str] is a list of Unicode code points ([pystr]); literals are
      written as UTF-8 Rocq strings and decoded by [u];
    - the Python values a record field can hold are [None], a number (int or
      finite float, as a rational [Q]) or a string;
    - exceptions ([TypeError], [AttributeError]) are the [Err] branch of a
      small error monad;
    - a Python dict is an association list in insertion order; assignment to
      an existing key keeps its position, a new key is appended.

    The last part embeds the request layer of [SejongRealEstateExtractor] in
    [main.py]: [_request_with_retry], [get_articles] and
    [get_all_articles_for_complex]. The network is a function giving the
    outcome of each request of a run; the requests sent and the [time.sleep]
    calls are recorded in a trace (the [print] calls are not). *)

From Stdlib Require Import List String Ascii ZArith QArith Lia Bool Lqa.
Import ListNotations.
Open Scope Z_scope.

(** ** Strings *)

Definition pystr := list Z.

Definition byte_of (c : ascii) : Z := Z.of_nat (nat_of_ascii c).

(** UTF-8 decoding of a Rocq string literal into code points. *)
Fixpoint u (s : string) : pystr :=
  match s with
  | EmptyString => []
  | String c r =>
    let b := byte_of c in
    if b <? 128 then b :: u r
    else if b <? 224 then
      match r with
      | String c1 r1 =>
        Z.lor (Z.shiftl (Z.land b 31) 6) (Z.land (byte_of c1) 63) :: u r1
      | EmptyString => [b]
      end
    else if b <? 240 then
      match r with
      | String c1 (String c2 r2) =>
        Z.lor (Z.shiftl (Z.land b 15) 12)
          (Z.lor (Z.shiftl (Z.land (byte_of c1) 63) 6) (Z.land (byte_of c2) 63))
          :: u r2
      | _ => b :: u r
      end
    else
      match r with
      | String c1 (String c2 (String c3 r3)) =>
        Z.lor (Z.shiftl (Z.land b 7) 18)
          (Z.lor (Z.shiftl (Z.land (byte_of c1) 63) 12)
            (Z.lor (Z.shiftl (Z.land (byte_of c2) 63) 6) (Z.land (byte_of c3) 63)))
          :: u r3
      | _ => b :: u r
      end
  end.

Definition pystr_eqb (a b : pystr) : bool :=
  if list_eq_dec Z.eq_dec a b then true else false.

Lemma pystr_eqb_eq a b : pystr_eqb a b = true <-> a = b.
Proof.
  unfold pystr_eqb; destruct (list_eq_dec Z.eq_dec a b); split; congruence.
Qed.

(** [str.isspace] code points, the characters removed by [str.strip()]. *)
Definition is_space (c : Z) : bool :=
  ((9 <=? c) && (c <=? 13)) || ((28 <=? c) && (c <=? 32)) || (c =? 133)
  || (c =? 160) || (c =? 5760) || ((8192 <=? c) && (c <=? 8202))
  || (c =? 8232) || (c =? 8233) || (c =? 8239) || (c =? 8287) || (c =? 12288).

Fixpoint lstrip (s : pystr) : pystr :=
  match s with
  | c :: t => if is_space c then lstrip t else s
  | [] => []
  end.

Definition rstrip (s : pystr) : pystr := rev (lstrip (rev s)).

Definition strip (s : pystr) : pystr := rstrip (lstrip s).

Fixpoint is_prefix (p s : pystr) : bool :=
  match p, s with
  | [], _ => true
  | _ :: _, [] => false
  | a :: p', b :: s' => (a =? b) && is_prefix p' s'
  end.

(** Python's [needle in hay] on strings: substring test. *)
Fixpoint contains (needle hay : pystr) : bool :=
  is_prefix needle hay ||
  match hay with
  | [] => false
  | _ :: t => contains needle t
  end.

(** ** Python values and exceptions *)

Inductive pyval :=
| PNone
| PNum (q : Q)
| PStr (s : pystr).

Inductive exn := TypeError | AttributeError.

Inductive res (A : Type) :=
| Ok (a : A)
| Err (e : exn).
Arguments Ok {A} a.
Arguments Err {A} e.

Definition bind {A B} (m : res A) (k : A -> res B) : res B :=
  match m with
  | Ok a => k a
  | Err e => Err e
  end.

Notation "x <- m ;; k" := (bind m (fun x => k))
  (at level 61, m at next level, right associativity).

(** Truth value of [not v] negated: Python truthiness. *)
Definition truthy (v : pyval) : bool :=
  match v with
  | PNone => false
  | PNum q => negb (Qeq_bool q 0)
  | PStr s => match s with [] => false | _ => true end
  end.

(** [a <= b] and [a < b] where one side is a numeric literal: defined between
    numbers, [TypeError] against [None] or a [str]. *)
Definition py_le (a b : pyval) : res bool :=
  match a, b with
  | PNum x, PNum y => Ok (Qle_bool x y)
  | _, _ => Err TypeError
  end.

Definition py_lt (a b : pyval) : res bool :=
  match a, b with
  | PNum x, PNum y => Ok (negb (Qle_bool y x))
  | _, _ => Err TypeError
  end.

(** ** Dicts as association lists in insertion order *)

Fixpoint dict_get {A} (d : list (pystr * A)) (k : pystr) : option A :=
  match d with
  | [] => None
  | (k', v) :: t => if pystr_eqb k k' then Some v else dict_get t k
  end.

(** [d[k] = v] *)
Fixpoint dict_set {A} (d : list (pystr * A)) (k : pystr) (v : A) : list (pystr * A) :=
  match d with
  | [] => [(k, v)]
  | (k', v') :: t => if pystr_eqb k k' then (k', v) :: t else (k', v') :: dict_set t k v
  end.

(** [d.get(k, default)] *)
Definition dict_get_default {A} (d : list (pystr * A)) (k : pystr) (dflt : A) : A :=
  match dict_get d k with
  | Some v => v
  | None => dflt
  end.

(** ** [SejongApartmentClassifier.__init__]: the rule tables *)

Open Scope Q_scope.

(** [self.village_keywords], in insertion order. *)
Definition village_keywords : list (pystr * pystr) :=
  [ (u "가락", u "가락마을");
    (u "가온", u "가온마을");
    (u "가재", u "가재마을");
    (u "나릿재", u "나릿재마을");
    (u "도램", u "도램마을");
    (u "범지기", u "범지기마을");
    (u "산울", u "산울마을");
    (u "새나루", u "새나루마을");
    (u "새뜸", u "새뜸마을");
    (u "새샘", u "새샘마을");
    (u "수루배", u "수루배마을");
    (u "첫마을", u "첫마을");
    (u "한뜰", u "한뜰마을");
    (u "해들", u "해들마을");
    (u "해밀", u "해밀마을");
    (u "호려울", u "호려울마을") ].

(** [self.price_ranges]: [(min_price, max_price, range_name)]. *)
Definition price_ranges : list (Q * Q * pystr) :=
  [ (0, 10000, u "1억 미만");
    (10000, 19999, u "1억대");
    (20000, 29999, u "2억대");
    (30000, 39999, u "3억대");
    (40000, 49999, u "4억대");
    (50000, 59999, u "5억대");
    (60000, 69999, u "6억대");
    (70000, 79999, u "7억대");
    (80000, 89999, u "8억대");
    (90000, 200000, u "9억 이상") ].

(** [area_types] of [export_classification_schema]. *)
Definition area_types : list (Q * Q * pystr) :=
  [ (0, 85, u "소형 (85㎡ 이하)");
    (85, 115, u "중형 (85-115㎡)");
    (115, 175, u "대형 (115-175㎡)");
    (175, 1000, u "초대형 (175㎡ 초과)") ].

Definition FALLBACK : pystr := u "기타(도시형/오피스텔)".
Definition UNKNOWN : pystr := u "정보없음".
Definition TOP_BAND : pystr := u "9억 이상".
Definition SMALL : pystr := u "소형 (85㎡ 이하)".
Definition MEDIUM : pystr := u "중형 (85-115㎡)".
Definition LARGE : pystr := u "대형 (115-175㎡)".
Definition XLARGE : pystr := u "초대형 (175㎡ 초과)".

(** ** [classify_village] *)

(** The loop [for keyword, village_name in self.village_keywords.items()]. *)
Fixpoint match_keyword (kws : list (pystr * pystr)) (name : pystr) : option pystr :=
  match kws with
  | [] => None
  | (keyword, village_name) :: t =>
    if contains keyword name then Some village_name else match_keyword t name
  end.

(** [complex_name.strip()] raises [AttributeError] unless [complex_name] is a
    [str]. *)
Definition classify_village (complex_name : pyval) : res pystr :=
  match complex_name with
  | PStr s =>
    let s := strip s in
    if contains (u "우빈가온") s then Ok FALLBACK
    else match match_keyword village_keywords s with
         | Some village_name => Ok village_name
         | None => if contains (u "도담") s then Ok (u "도램마을") else Ok FALLBACK
         end
  | _ => Err AttributeError
  end.

(** ** [classify_price_range] *)

(** The loop over [self.price_ranges]; [min_price <= price < max_price] is a
    chained comparison, the second test only runs when the first holds. *)
Fixpoint scan_price_ranges (ranges : list (Q * Q * pystr)) (price : pyval) : res pystr :=
  match ranges with
  | [] => Ok TOP_BAND
  | (min_price, max_price, range_name) :: t =>
    b1 <- py_le (PNum min_price) price ;;
    if b1 then
      (b2 <- py_lt price (PNum max_price) ;;
       if b2 then Ok range_name else scan_price_ranges t price)
    else scan_price_ranges t price
  end.

Definition classify_price_range (price : pyval) : res pystr :=
  if negb (truthy price) then Ok UNKNOWN
  else scan_price_ranges price_ranges price.

(** ** [classify_area_type] *)

Definition classify_area_type (area : pyval) : res pystr :=
  if negb (truthy area) then Ok UNKNOWN
  else
    b1 <- py_le area (PNum 85) ;;
    if b1 then Ok SMALL else
    b2 <- py_le area (PNum 115) ;;
    if b2 then Ok MEDIUM else
    b3 <- py_le area (PNum 175) ;;
    if b3 then Ok LARGE else Ok XLARGE.

Example classify_village_ex1 : classify_village (PStr (u "가락마을 1단지")) = Ok (u "가락마을").
Proof. vm_compute. reflexivity. Qed.
Example classify_village_ex2 : classify_village (PStr (u "  우빈가온타워 ")) = Ok FALLBACK.
Proof. vm_compute. reflexivity. Qed.
Example classify_price_ex1 : classify_price_range (PNum 19999) = Ok TOP_BAND.
Proof. vm_compute. reflexivity. Qed.

(** ** [process_data] *)

Definition record := list (pystr * pyval).

Definition K_NAME : pystr := u "단지명".
Definition K_PRICE : pystr := u "중간매매가(만원)".
Definition K_AREA : pystr := u "대표면적(㎡)".
Definition K_VILLAGE : pystr := u "마을분류".
Definition K_PRANGE : pystr := u "가격구간".
Definition K_ATYPE : pystr := u "평형구간".

(** One entry of [village_summary]: the keys ['단지수'], ['평균가격'],
    ['최저가격'], ['최고가격'], ['비율']. *)
Record village_entry := {
  ve_count : nat;
  ve_mean : Q;
  ve_min : Q;
  ve_max : Q;
  ve_ratio : Q
}.

Record result := {
  processed_data : list record;
  village_summary : list (pystr * village_entry);
  price_distribution : list (pystr * nat);
  total_count : nat
}.

(** Loop state: [processed_data], [village_stats], [price_stats]. *)
Record loop_state := {
  st_processed : list record;
  st_village_stats : list (pystr * list pyval);
  st_price_stats : list (pystr * nat)
}.

(** [{**item, '마을분류': village, '가격구간': price_range, '평형구간': area_type}] *)
Definition label_item (item : record) (village price_range area_type : pystr) : record :=
  dict_set (dict_set (dict_set item K_VILLAGE (PStr village))
                     K_PRANGE (PStr price_range))
           K_ATYPE (PStr area_type).

(** One iteration of [for item in data]. *)
Definition process_item (st : loop_state) (item : record) : res loop_state :=
  let complex_name := dict_get_default item K_NAME (PStr []) in
  let price := dict_get_default item K_PRICE (PNum 0) in
  let area := dict_get_default item K_AREA (PNum 0) in
  village <- classify_village complex_name ;;
  price_range <- classify_price_range price ;;
  area_type <- classify_area_type area ;;
  let processed_item := label_item item village price_range area_type in
  let vs := st_village_stats st in
  let vs := match dict_get vs village with
            | Some _ => vs
            | None => dict_set vs village []
            end in
  let vs := if truthy price
            then dict_set vs village (dict_get_default vs village [] ++ [price])
            else vs in
  let ps := st_price_stats st in
  let ps := match dict_get ps price_range with
            | Some _ => ps
            | None => dict_set ps price_range 0%nat
            end in
  let ps := dict_set ps price_range (S (dict_get_default ps price_range 0%nat)) in
  Ok {| st_processed := st_processed st ++ [processed_item];
        st_village_stats := vs;
        st_price_stats := ps |}.

Fixpoint process_loop (st : loop_state) (data : list record) : res loop_state :=
  match data with
  | [] => Ok st
  | item :: rest => st' <- process_item st item ;; process_loop st' rest
  end.

(** [sum(prices)]: [0 + p] raises [TypeError] unless [p] is a number. *)
Fixpoint py_sum (acc : Q) (l : list pyval) : res Q :=
  match l with
  | [] => Ok acc
  | PNum q :: t => py_sum (acc + q) t
  | _ :: t => Err TypeError
  end.

(** The numbers of [prices], once [sum] has succeeded on them. *)
Fixpoint nums (l : list pyval) : list Q :=
  match l with
  | [] => []
  | PNum q :: t => q :: nums t
  | _ :: t => nums t
  end.

(** [min] and [max] keep the current element unless a later one is strictly
    smaller (larger). *)
Definition py_min (x : Q) (l : list Q) : Q :=
  fold_left (fun m y => if negb (Qle_bool m y) then y else m) l x.
Definition py_max (x : Q) (l : list Q) : Q :=
  fold_left (fun m y => if negb (Qle_bool y m) then y else m) l x.

(** [for village, prices in village_stats.items(): if prices: ...] *)
Fixpoint summarize (total_count : nat) (summary : list (pystr * village_entry))
    (stats : list (pystr * list pyval)) : res (list (pystr * village_entry)) :=
  match stats with
  | [] => Ok summary
  | (village, prices) :: t =>
    match prices with
    | [] => summarize total_count summary t
    | _ :: _ =>
      s <- py_sum 0 prices ;;
      let n := List.length prices in
      let qs := nums prices in
      let lo := match qs with [] => 0 | x :: r => py_min x r end in
      let hi := match qs with [] => 0 | x :: r => py_max x r end in
      let entry := {| ve_count := n;
                      ve_mean := s / inject_Z (Z.of_nat n);
                      ve_min := lo;
                      ve_max := hi;
                      ve_ratio := (inject_Z (Z.of_nat n) / inject_Z (Z.of_nat total_count)) * 100 |} in
      summarize total_count (dict_set summary village entry) t
    end
  end.

Definition process_data (data : list record) : res result :=
  let total_count := List.length data in
  st <- process_loop {| st_processed := []; st_village_stats := []; st_price_stats := [] |} data ;;
  village_summary <- summarize total_count [] (st_village_stats st) ;;
  Ok {| processed_data := st_processed st;
        village_summary := village_summary;
        price_distribution := st_price_stats st;
        total_count := total_count |}.

(** Sums over the values of a dict, used by the aggregation invariants. *)
Definition fsum {A} (f : A -> nat) (d : list (pystr * A)) : nat :=
  fold_right (fun e acc => (f (snd e) + acc)%nat) 0%nat d.

(** [sum(v['단지수'] for v in village_summary.values())] *)
Definition sum_village_counts (s : list (pystr * village_entry)) : nat :=
  fsum ve_count s.
(** [sum(price_distribution.values())] *)
Definition sum_price_counts (s : list (pystr * nat)) : nat :=
  fsum (fun n => n) s.

(** Number of records whose price, read with [item.get('중간매매가(만원)', 0)],
    is truthy. *)
Definition count_priced (data : list record) : nat :=
  List.length (filter (fun item => truthy (dict_get_default item K_PRICE (PNum 0))) data).

(** A record counted in ['단지수'] of village [v]: classified into [v], with a
    truthy price. *)
Definition village_priced (v : pystr) (item : record) : bool :=
  match classify_village (dict_get_default item K_NAME (PStr [])) with
  | Ok w => pystr_eqb w v && truthy (dict_get_default item K_PRICE (PNum 0))
  | Err _ => false
  end.

Definition village_count (data : list record) (v : pystr) : nat :=
  List.length (filter (village_priced v) data).

Definition sample_records : list record :=
  [ [(K_NAME, PStr (u "가락마을 1단지")); (K_PRICE, PNum 35000); (K_AREA, PNum 84)];
    [(K_NAME, PStr (u "우빈가온타워")); (K_AREA, PNum 99)];
    [(K_NAME, PStr (u "가락마을 2단지")); (K_PRICE, PNum 19999)] ].

Example process_sample :
  match process_data sample_records with
  | Ok r => sum_price_counts (price_distribution r) = 3%nat /\
            sum_village_counts (village_summary r) = 2%nat
  | Err _ => False
  end.
Proof. vm_compute. split; reflexivity. Qed.

(** ** Helper lemmas on the classifiers *)

Lemma Qle_bool_false x y : y < x -> Qle_bool x y = false.
Proof.
  intro H. destruct (Qle_bool x y) eqn:E; [|reflexivity].
  apply Qle_bool_iff in E. exfalso. apply (Qlt_not_le _ _ H E).
Qed.

Lemma Qle_bool_true x y : x <= y -> Qle_bool x y = true.
Proof. apply Qle_bool_iff. Qed.

Lemma truthy_num q : ~ q == 0 -> truthy (PNum q) = true.
Proof.
  intro H. simpl. destruct (Qeq_bool q 0) eqn:E; [|reflexivity].
  apply Qeq_bool_iff in E. contradiction.
Qed.

(** The scan over ranges whose lower bounds are all non-negative falls
    through to the final return for a negative price. *)
Lemma scan_price_ranges_negative ranges p :
  Forall (fun r => 0 <= fst (fst r)) ranges -> p < 0 ->
  scan_price_ranges ranges (PNum p) = Ok TOP_BAND.
Proof.
  intros Hall Hp. induction Hall as [|[[lo hi] name] t Hlo _ IH]; [reflexivity|].
  simpl in Hlo |- *. rewrite Qle_bool_false by (apply Qlt_le_trans with 0; assumption).
  exact IH.
Qed.

(** [classify_area_type] on a non-zero number, with the comparisons it makes. *)
Lemma classify_area_type_num a : ~ a == 0 ->
  classify_area_type (PNum a) =
  Ok (if Qle_bool a 85 then SMALL
      else if Qle_bool a 115 then MEDIUM
      else if Qle_bool a 175 then LARGE else XLARGE).
Proof.
  intro H. unfold classify_area_type. rewrite truthy_num by exact H. simpl.
  destruct (Qle_bool a 85); [reflexivity|].
  destruct (Qle_bool a 115); [reflexivity|].
  destruct (Qle_bool a 175); reflexivity.
Qed.

(** ** Theorems *)

(** C1 (price bands cover [0, oo) without gaps): the configured bands leave
    gaps, e.g. [19999, 20000): the price 19999 lies in no configured interval
    and is classified by the final fallback as ['9억 이상'], not as ['1억대']. *)
Theorem classify_price_range_gap_19999 :
  existsb (fun r => Qle_bool (fst (fst r)) 19999 && negb (Qle_bool (snd (fst r)) 19999))
    price_ranges = false /\
  classify_price_range (PNum 19999) = Ok TOP_BAND /\
  classify_price_range (PNum (599985 # 20)) = Ok TOP_BAND.
Proof. vm_compute. repeat split. Qed.

(** C2 (area unit conversion), counterexample: no division by 3.3 happens.
    The raw area 99 is classified in the band ['중형 (85-115㎡)'], whose
    exported interval [85, 115) contains 99 itself, while its converted value
    99 / 3.3 = 30 is classified as ['소형 (85㎡ 이하)'] by the same function. *)
Lemma classify_area_type_99_raw :
  classify_area_type (PNum 99) = Ok MEDIUM /\
  In (85, 115, MEDIUM) area_types /\
  classify_area_type (PNum (99 / (33 # 10))) = Ok SMALL /\
  MEDIUM <> SMALL.
Proof.
  split; [vm_compute; reflexivity|].
  split; [simpl; tauto|].
  split; [vm_compute; reflexivity|].
  vm_compute. discriminate.
Qed.

(** C2 (amended): [classify_area_type] compares the raw area in ㎡ directly
    with the thresholds 85, 115 and 175, upper bounds inclusive, with no unit
    conversion; the raw area 99 is ['중형 (85-115㎡)']. *)
Theorem classify_area_type_raw_thresholds a : ~ a == 0 ->
  (a <= 85 -> classify_area_type (PNum a) = Ok SMALL) /\
  (85 < a -> a <= 115 -> classify_area_type (PNum a) = Ok MEDIUM) /\
  (115 < a -> a <= 175 -> classify_area_type (PNum a) = Ok LARGE) /\
  (175 < a -> classify_area_type (PNum a) = Ok XLARGE).
Proof.
  intro H0. rewrite (classify_area_type_num a H0).
  repeat split; intros.
  - rewrite Qle_bool_true by assumption. reflexivity.
  - rewrite Qle_bool_false by assumption. rewrite Qle_bool_true by assumption.
    reflexivity.
  - rewrite Qle_bool_false by (apply Qlt_trans with 115; [reflexivity|assumption]).
    rewrite Qle_bool_false by assumption. rewrite Qle_bool_true by assumption.
    reflexivity.
  - rewrite Qle_bool_false by (apply Qlt_trans with 175; [reflexivity|assumption]).
    rewrite Qle_bool_false by (apply Qlt_trans with 175; [reflexivity|assumption]).
    rewrite Qle_bool_false by assumption. reflexivity.
Qed.

Lemma classify_area_type_raw_thresholds_witness :
  ~ 99 == 0 /\ classify_area_type (PNum 99) = Ok MEDIUM.
Proof.
  split; [discriminate|].
  destruct (classify_area_type_raw_thresholds 99) as [_ [H _]]; [discriminate|].
  apply H; vm_compute; [reflexivity|discriminate].
Defined.

(** C6 (boundary belongs to the upper band), counterexample: the area 85 is
    classified as ['소형 (85㎡ 이하)'], not ['중형 (85-115㎡)']. *)
Lemma classify_area_type_85_small :
  classify_area_type (PNum 85) = Ok SMALL /\ SMALL <> MEDIUM.
Proof. vm_compute. split; [reflexivity|discriminate]. Qed.

(** C6 (amended): the size bands compare the raw area with [<=]: every
    non-zero area up to 85 is ['소형 (85㎡ 이하)'], every area in (85, 115]
    ['중형 (85-115㎡)'], in (115, 175] ['대형 (115-175㎡)'], above 175
    ['초대형 (175㎡ 초과)']; so a threshold itself belongs to the band it
    bounds from above (85, 115, 175) and any value above it to the next. *)
Theorem classify_area_type_boundaries_upper_inclusive :
  (forall a, ~ a == 0 -> a <= 85 -> classify_area_type (PNum a) = Ok SMALL) /\
  (forall a, 85 < a -> a <= 115 -> classify_area_type (PNum a) = Ok MEDIUM) /\
  (forall a, 115 < a -> a <= 175 -> classify_area_type (PNum a) = Ok LARGE) /\
  (forall a, 175 < a -> classify_area_type (PNum a) = Ok XLARGE) /\
  classify_area_type (PNum 85) = Ok SMALL /\
  classify_area_type (PNum 115) = Ok MEDIUM /\
  classify_area_type (PNum 175) = Ok LARGE.
Proof.
  assert (NZ : forall a c, 0 <= c -> c < a -> ~ a == 0)
    by (intros a c Hc Ha E; rewrite E in Ha; apply (Qlt_not_le _ _ Ha Hc)).
  split; [|split; [|split; [|split]]].
  - intros a H0 H. rewrite (classify_area_type_num a H0).
    rewrite Qle_bool_true by exact H. reflexivity.
  - intros a H1 H2. rewrite (classify_area_type_num a (NZ a 85 ltac:(discriminate) H1)).
    rewrite Qle_bool_false by exact H1. rewrite Qle_bool_true by exact H2. reflexivity.
  - intros a H1 H2. rewrite (classify_area_type_num a (NZ a 115 ltac:(discriminate) H1)).
    rewrite Qle_bool_false by (apply Qlt_trans with 115; [reflexivity|exact H1]).
    rewrite Qle_bool_false by exact H1. rewrite Qle_bool_true by exact H2. reflexivity.
  - intros a H1. rewrite (classify_area_type_num a (NZ a 175 ltac:(discriminate) H1)).
    rewrite Qle_bool_false by (apply Qlt_trans with 175; [reflexivity|exact H1]).
    rewrite Qle_bool_false by (apply Qlt_trans with 175; [reflexivity|exact H1]).
    rewrite Qle_bool_false by exact H1. reflexivity.
  - repeat split; (rewrite classify_area_type_num by discriminate); reflexivity.
Qed.

Lemma classify_area_type_boundaries_upper_inclusive_witness :
  classify_area_type (PNum (8501 # 100)) = Ok MEDIUM.
Proof.
  destruct classify_area_type_boundaries_upper_inclusive as (_ & H & _).
  apply H; vm_compute; first [reflexivity | discriminate].
Defined.

(** C7 (lower bound inclusive), counterexample: 0 is the lower bound of the
    band ['1억 미만'], but a zero price is falsy and is classified as
    ['정보없음']. *)
Lemma classify_price_range_zero_lower_bound :
  In (0, 10000, u "1억 미만") price_ranges /\
  classify_price_range (PNum 0) = Ok UNKNOWN /\
  UNKNOWN <> u "1억 미만".
Proof.
  split; [simpl; tauto|]. vm_compute. split; [reflexivity|discriminate].
Qed.

(** C7 (amended): a price equal to the non-zero lower bound of a configured
    band (10000, 20000, ..., 90000) is classified into that band; 10000 is
    ['1억대']. *)
Theorem classify_price_range_lower_bound lo hi name :
  In (lo, hi, name) price_ranges -> ~ lo == 0 ->
  classify_price_range (PNum lo) = Ok name.
Proof.
  intros Hin Hlo. simpl in Hin.
  repeat (destruct Hin as [Hin|Hin]; [injection Hin as <- <- <-|]);
    try (vm_compute; reflexivity); try contradiction.
  exfalso; apply Hlo; reflexivity.
Qed.

Lemma classify_price_range_lower_bound_witness :
  classify_price_range (PNum 10000) = Ok (u "1억대").
Proof.
  apply (classify_price_range_lower_bound 10000 19999); [simpl; tauto|discriminate].
Defined.

(** C10: a strictly negative price is truthy, fails every interval test and
    reaches the final return ['9억 이상']. *)
Theorem classify_price_range_negative p :
  p < 0 -> classify_price_range (PNum p) = Ok TOP_BAND.
Proof.
  intro Hp. unfold classify_price_range.
  rewrite truthy_num by (intro E; rewrite E in Hp; discriminate).
  simpl negb. cbv iota.
  apply scan_price_ranges_negative; [|exact Hp].
  repeat constructor; simpl; discriminate.
Qed.

Lemma classify_price_range_negative_witness :
  classify_price_range (PNum (-1)) = Ok TOP_BAND.
Proof. apply classify_price_range_negative. reflexivity. Defined.

Lemma match_keyword_first pre k v post s :
  contains k s = true ->
  Forall (fun kv => contains (fst kv) s = false) pre ->
  match_keyword (pre ++ (k, v) :: post) s = Some v.
Proof.
  intros Hk Hpre. induction Hpre as [|[k' v'] pre' Hk' _ IH]; simpl.
  - rewrite Hk. reflexivity.
  - simpl in Hk'. rewrite Hk'. exact IH.
Qed.

Lemma match_keyword_none kws s :
  Forall (fun kv => contains (fst kv) s = false) kws -> match_keyword kws s = None.
Proof.
  intro H. induction H as [|[k v] t Hk _ IH]; simpl; [reflexivity|].
  simpl in Hk. rewrite Hk. exact IH.
Qed.

(** C5: on the stripped name, the ['우빈가온'] override comes first, then the
    village of the first keyword of [village_keywords] (in insertion order)
    contained in the name, then the ['도담'] pattern (['도램마을']), and the
    fallback label otherwise, in particular for the empty name;
    ['가락마을 1단지'] is ['가락마을'] and ['우빈가온타워'] is the fallback
    although it contains the keyword ['가온']. *)
Theorem classify_village_rules :
  (forall s, contains (u "우빈가온") (strip s) = true ->
     classify_village (PStr s) = Ok FALLBACK) /\
  (forall s pre k v post,
     village_keywords = pre ++ (k, v) :: post ->
     contains (u "우빈가온") (strip s) = false ->
     Forall (fun kv => contains (fst kv) (strip s) = false) pre ->
     contains k (strip s) = true ->
     classify_village (PStr s) = Ok v) /\
  (forall s, contains (u "우빈가온") (strip s) = false ->
     Forall (fun kv => contains (fst kv) (strip s) = false) village_keywords ->
     contains (u "도담") (strip s) = true ->
     classify_village (PStr s) = Ok (u "도램마을")) /\
  (forall s, contains (u "우빈가온") (strip s) = false ->
     Forall (fun kv => contains (fst kv) (strip s) = false) village_keywords ->
     contains (u "도담") (strip s) = false ->
     classify_village (PStr s) = Ok FALLBACK) /\
  classify_village (PStr []) = Ok FALLBACK /\
  classify_village (PStr (u "가락마을 1단지")) = Ok (u "가락마을") /\
  contains (u "가온") (u "우빈가온타워") = true /\
  classify_village (PStr (u "우빈가온타워")) = Ok FALLBACK.
Proof.
  split; [intros s H; unfold classify_village; cbv zeta; rewrite H; reflexivity|].
  split.
  { intros s pre k v post Hkw Hov Hpre Hk. unfold classify_village; cbv zeta. rewrite Hov, Hkw.
    rewrite (match_keyword_first pre k v post _ Hk Hpre). reflexivity. }
  split.
  { intros s Hov Hall Hd. unfold classify_village; cbv zeta. rewrite Hov, (match_keyword_none _ _ Hall), Hd.
    reflexivity. }
  split.
  { intros s Hov Hall Hd. unfold classify_village; cbv zeta. rewrite Hov, (match_keyword_none _ _ Hall), Hd.
    reflexivity. }
  vm_compute. repeat split.
Qed.

Lemma classify_village_rules_witness :
  classify_village (PStr (u "가락마을 1단지")) = Ok (u "가락마을").
Proof.
  destruct classify_village_rules as [_ [H _]].
  apply (H (u "가락마을 1단지") [] (u "가락") (u "가락마을") (tl village_keywords));
    vm_compute; first [reflexivity | constructor].
Defined.

(** ** Dict lemmas *)

Lemma pystr_eqb_refl k : pystr_eqb k k = true.
Proof. apply pystr_eqb_eq. reflexivity. Qed.

Ltac case_key a b :=
  let E := fresh "E" in
  destruct (pystr_eqb a b) eqn:E; [apply pystr_eqb_eq in E; subst|].

Section DictLemmas.
Context {A : Type}.
Implicit Types (d : list (pystr * A)) (k : pystr) (v : A).

Lemma dict_get_set_same d k v : dict_get (dict_set d k v) k = Some v.
Proof.
  induction d as [|[k' v'] t IH]; simpl.
  - rewrite pystr_eqb_refl. reflexivity.
  - case_key k k'; simpl; [rewrite pystr_eqb_refl; reflexivity|].
    rewrite E. exact IH.
Qed.

Lemma dict_get_set_other d k k2 v :
  k2 <> k -> dict_get (dict_set d k v) k2 = dict_get d k2.
Proof.
  intro Hne. induction d as [|[k' v'] t IH]; simpl.
  - destruct (pystr_eqb k2 k) eqn:E; [apply pystr_eqb_eq in E; contradiction|reflexivity].
  - case_key k k'; simpl.
    + destruct (pystr_eqb k2 k') eqn:E2; [apply pystr_eqb_eq in E2; contradiction|reflexivity].
    + destruct (pystr_eqb k2 k'); [reflexivity|exact IH].
Qed.

Lemma dict_set_absent d k v : dict_get d k = None -> dict_set d k v = d ++ [(k, v)].
Proof.
  induction d as [|[k' v'] t IH]; simpl; [reflexivity|].
  case_key k k'; [discriminate|]. intro H. rewrite (IH H). reflexivity.
Qed.

Lemma dict_get_None_not_in d k : dict_get d k = None -> ~ In k (map fst d).
Proof.
  induction d as [|[k' v'] t IH]; simpl; [tauto|].
  case_key k k'; [discriminate|]. intros H [H'|H'].
  - subst. rewrite pystr_eqb_refl in E. discriminate.
  - exact (IH H H').
Qed.

Lemma dict_get_not_in_None d k : ~ In k (map fst d) -> dict_get d k = None.
Proof.
  induction d as [|[k' v'] t IH]; simpl; [reflexivity|].
  intro H. case_key k k'; [exfalso; apply H; left; reflexivity|].
  apply IH. tauto.
Qed.

Lemma in_map_fst_dict_set d k v x :
  In x (map fst (dict_set d k v)) -> x = k \/ In x (map fst d).
Proof.
  induction d as [|[k' v'] t IH]; simpl.
  - intros [H|[]]. left; symmetry; exact H.
  - case_key k k'; simpl; [tauto|]. intros [H|H]; [tauto|].
    destruct (IH H); tauto.
Qed.

Lemma nodup_dict_set d k v :
  NoDup (map fst d) -> NoDup (map fst (dict_set d k v)).
Proof.
  induction d as [|[k' v'] t IH]; simpl; intro Hnd.
  - constructor; [simpl; tauto|constructor].
  - inversion Hnd as [|? ? Hnin Hnd']; subst.
    case_key k k'; simpl; [exact Hnd|].
    constructor; [|exact (IH Hnd')].
    intro Hin. destruct (in_map_fst_dict_set _ _ _ _ Hin) as [->|Hin'].
    + rewrite pystr_eqb_refl in E. discriminate.
    + contradiction.
Qed.

Lemma fsum_dict_set (f : A -> nat) d k v dflt :
  f dflt = 0%nat ->
  (fsum f (dict_set d k v) + f (dict_get_default d k dflt) = fsum f d + f v)%nat.
Proof.
  intro Hd. unfold dict_get_default.
  induction d as [|[k' v'] t IH]; simpl.
  - rewrite Hd. lia.
  - case_key k k'; simpl; lia.
Qed.

Lemma Forall_dict_set (P : A -> Prop) d k v :
  Forall (fun e => P (snd e)) d -> P v -> Forall (fun e => P (snd e)) (dict_set d k v).
Proof.
  intros Hd Hv. induction Hd as [|[k' v'] t H1 Ht IH]; simpl.
  - repeat constructor. exact Hv.
  - case_key k k'; constructor; simpl; auto.
Qed.

Lemma Forall_dict_get_default (P : A -> Prop) d k dflt :
  Forall (fun e => P (snd e)) d -> P dflt -> P (dict_get_default d k dflt).
Proof.
  unfold dict_get_default. intros Hd Hdf.
  induction Hd as [|[k' v'] t H1 _ IH]; simpl; [exact Hdf|].
  destruct (pystr_eqb k k'); [exact H1|exact IH].
Qed.

End DictLemmas.

(** ** Invariants of the [process_data] loop *)

Definition is_num (v : pyval) : Prop :=
  match v with PNum _ => True | _ => False end.

Definition num_lists (vs : list (pystr * list pyval)) : Prop :=
  Forall (fun e => Forall is_num (snd e)) vs.

(** [if x not in d: d[x] = dflt] leaves every sum over [d] unchanged. *)
Lemma fsum_setdefault {A} (f : A -> nat) d k dflt :
  f dflt = 0%nat ->
  fsum f (match dict_get d k with Some _ => d | None => dict_set d k dflt end) = fsum f d.
Proof.
  intro Hd. destruct (dict_get d k) eqn:G; [reflexivity|].
  pose proof (fsum_dict_set f d k dflt dflt Hd) as E.
  unfold dict_get_default in E. rewrite G, Hd in E. lia.
Qed.

Lemma fsum_increment {A} (f : A -> nat) d k (g : A -> A) dflt :
  f dflt = 0%nat ->
  (fsum f (dict_set d k (g (dict_get_default d k dflt))) + f (dict_get_default d k dflt)
   = fsum f d + f (g (dict_get_default d k dflt)))%nat.
Proof. intro Hd. apply fsum_dict_set. exact Hd. Qed.

Lemma process_item_inv st item st' :
  process_item st item = Ok st' ->
  exists v p a,
    classify_village (dict_get_default item K_NAME (PStr [])) = Ok v /\
    classify_price_range (dict_get_default item K_PRICE (PNum 0)) = Ok p /\
    classify_area_type (dict_get_default item K_AREA (PNum 0)) = Ok a /\
    st_processed st' = st_processed st ++ [label_item item v p a] /\
    sum_price_counts (st_price_stats st') = S (sum_price_counts (st_price_stats st)) /\
    fsum (@List.length pyval) (st_village_stats st') =
      (fsum (@List.length pyval) (st_village_stats st) +
       if truthy (dict_get_default item K_PRICE (PNum 0)) then 1 else 0)%nat /\
    (NoDup (map fst (st_village_stats st)) -> NoDup (map fst (st_village_stats st'))) /\
    (num_lists (st_village_stats st) ->
     (truthy (dict_get_default item K_PRICE (PNum 0)) = true ->
      is_num (dict_get_default item K_PRICE (PNum 0))) ->
     num_lists (st_village_stats st')).
Proof.
  intro H. unfold process_item in H. cbv zeta in H.
  destruct (classify_village _) as [v|] eqn:Hv; [|discriminate]. cbn [bind] in H.
  destruct (classify_price_range _) as [p|] eqn:Hp; [|discriminate]. cbn [bind] in H.
  destruct (classify_area_type _) as [a|] eqn:Ha; [|discriminate]. cbn [bind] in H.
  injection H as <-. exists v, p, a. cbn [st_processed st_price_stats st_village_stats].
  do 4 (split; [reflexivity || assumption|]).
  remember (dict_get_default item K_PRICE (PNum 0)) as price eqn:Hprice.
  remember (st_village_stats st) as vs eqn:Hvs.
  remember (st_price_stats st) as ps eqn:Hps.
  remember (match dict_get vs v with Some _ => vs | None => dict_set vs v [] end) as vs1 eqn:Hvs1.
  remember (match dict_get ps p with Some _ => ps | None => dict_set ps p 0%nat end) as ps1 eqn:Hps1.
  assert (E1 : fsum (@List.length pyval) vs1 = fsum (@List.length pyval) vs)
    by (subst vs1; apply fsum_setdefault; reflexivity).
  assert (E2 : fsum (fun n => n) ps1 = fsum (fun n => n) ps)
    by (subst ps1; apply fsum_setdefault; reflexivity).
  split.
  { unfold sum_price_counts.
    pose proof (fsum_increment (fun n => n) ps1 p S 0%nat eq_refl) as E3.
    cbv beta in E3. lia. }
  split.
  { destruct (truthy price).
    - pose proof (fsum_increment (@List.length pyval) vs1 v (fun l => l ++ [price]) [] eq_refl)
        as E3.
      cbv beta in E3. rewrite length_app in E3. simpl in E3. lia.
    - lia. }
  assert (N1 : NoDup (map fst vs) -> NoDup (map fst vs1)).
  { intro N. subst vs1. destruct (dict_get vs v); [exact N|apply nodup_dict_set, N]. }
  assert (F1 : num_lists vs -> num_lists vs1).
  { intro F. subst vs1. destruct (dict_get vs v); [exact F|].
    apply Forall_dict_set; [exact F|constructor]. }
  split.
  { intro N. destruct (truthy price); [apply nodup_dict_set|]; apply N1, N. }
  intros F Hnum. destruct (truthy price) eqn:T; [|apply F1, F].
  apply Forall_dict_set; [apply F1, F|].
  apply Forall_app. split.
  - apply Forall_dict_get_default; [apply F1, F|constructor].
  - constructor; [apply Hnum; reflexivity|constructor].
Qed.

(** The processed item produced for [item]: [item] with its three labels. *)
Definition labeled (item out : record) : Prop :=
  exists v p a,
    classify_village (dict_get_default item K_NAME (PStr [])) = Ok v /\
    classify_price_range (dict_get_default item K_PRICE (PNum 0)) = Ok p /\
    classify_area_type (dict_get_default item K_AREA (PNum 0)) = Ok a /\
    out = label_item item v p a.

Definition priced_is_num (item : record) : Prop :=
  truthy (dict_get_default item K_PRICE (PNum 0)) = true ->
  is_num (dict_get_default item K_PRICE (PNum 0)).

Lemma process_loop_inv data : forall st st',
  process_loop st data = Ok st' ->
  (exists outs, st_processed st' = st_processed st ++ outs /\ Forall2 labeled data outs) /\
  sum_price_counts (st_price_stats st') =
    (sum_price_counts (st_price_stats st) + List.length data)%nat /\
  fsum (@List.length pyval) (st_village_stats st') =
    (fsum (@List.length pyval) (st_village_stats st) + count_priced data)%nat /\
  (NoDup (map fst (st_village_stats st)) -> NoDup (map fst (st_village_stats st'))) /\
  (num_lists (st_village_stats st) -> Forall priced_is_num data ->
   num_lists (st_village_stats st')).
Proof.
  induction data as [|item rest IH]; intros st st' H.
  - injection H as <-. split; [exists []; rewrite app_nil_r; split; constructor|].
    unfold count_priced; simpl. split; [lia|]. split; [lia|]. tauto.
  - simpl in H. destruct (process_item st item) as [st1|] eqn:H1; [|discriminate].
    cbn [bind] in H.
    destruct (process_item_inv _ _ _ H1)
      as (v & p & a & Hv & Hp & Ha & Hpr & Hps & Hvs & Hnd & Hnum).
    destruct (IH _ _ H) as ([outs [Houts Hf2]] & Hps' & Hvs' & Hnd' & Hnum').
    split.
    { exists (label_item item v p a :: outs). split.
      - rewrite Houts, Hpr, <- app_assoc. reflexivity.
      - constructor; [exists v, p, a; auto|exact Hf2]. }
    split; [simpl; lia|].
    split.
    { rewrite Hvs', Hvs. unfold count_priced. simpl.
      destruct (truthy (dict_get_default item K_PRICE (PNum 0))); simpl; lia. }
    split; [tauto|].
    intros F Hall. inversion Hall as [|? ? Hi Hrest]; subst.
    apply Hnum'; [apply Hnum; assumption|exact Hrest].
Qed.

Definition default_entry : village_entry :=
  {| ve_count := 0; ve_mean := 0; ve_min := 0; ve_max := 0; ve_ratio := 0 |}.

Lemma summarize_count total stats : forall summary out,
  NoDup (map fst stats) ->
  (forall k, In k (map fst stats) -> dict_get summary k = None) ->
  summarize total summary stats = Ok out ->
  fsum ve_count out = (fsum ve_count summary + fsum (@List.length pyval) stats)%nat.
Proof.
  induction stats as [|[village prices] t IH]; intros summary out Hnd Hfresh H.
  - injection H as <-. simpl. lia.
  - inversion Hnd as [|? ? Hnin Hnd']; subst.
    simpl in H. destruct prices as [|x xs].
    + rewrite (IH summary out Hnd') by (auto; intros k Hk; apply Hfresh; right; exact Hk).
      simpl. lia.
    + destruct (py_sum 0 (x :: xs)) as [s|] eqn:Hs; [|discriminate]. cbn [bind] in H.
      match type of H with summarize _ (dict_set _ _ ?e) _ = _ =>
        set (entry := e) in H end.
      assert (Hfresh' : forall k, In k (map fst t) ->
                dict_get (dict_set summary village entry) k = None).
      { intros k Hk. rewrite dict_get_set_other.
        - apply Hfresh. right. exact Hk.
        - intro E. subst. contradiction. }
      rewrite (IH _ _ Hnd' Hfresh' H).
      pose proof (fsum_dict_set ve_count summary village entry default_entry eq_refl) as E.
      unfold dict_get_default in E.
      rewrite (Hfresh village (or_introl eq_refl)) in E. simpl in E |- *. lia.
Qed.



Definition init_state : loop_state :=
  {| st_processed := []; st_village_stats := []; st_price_stats := [] |}.

Lemma process_data_inv data r :
  process_data data = Ok r ->
  exists st, process_loop init_state data = Ok st /\
    summarize (List.length data) [] (st_village_stats st) = Ok (village_summary r) /\
    processed_data r = st_processed st /\
    price_distribution r = st_price_stats st /\
    total_count r = List.length data.
Proof.
  unfold process_data. intro H.
  destruct (process_loop _ data) as [st|] eqn:Hl; [|discriminate]. cbn [bind] in H.
  destruct (summarize _ _ _) as [vsum|] eqn:Hs; [|discriminate]. cbn [bind] in H.
  injection H as <-. exists st. repeat split; assumption.
Qed.

(** C9: the counts of the price distribution, the unknown label included,
    add up to [total_count]. *)
Theorem process_data_price_distribution_total data r :
  process_data data = Ok r ->
  sum_price_counts (price_distribution r) = total_count r.
Proof.
  intro H. destruct (process_data_inv _ _ H) as (st & Hl & _ & _ & Hpd & Ht).
  destruct (process_loop_inv _ _ _ Hl) as (_ & Hps & _).
  rewrite Hpd, Ht, Hps. reflexivity.
Qed.

Lemma process_data_price_distribution_total_witness :
  exists r, process_data sample_records = Ok r /\
            sum_price_counts (price_distribution r) = total_count r.
Proof.
  eexists. split; [reflexivity|].
  apply (process_data_price_distribution_total sample_records). reflexivity.
Defined.

(** C3, counterexample: a single record without a price gives
    [total_count] 1 and an empty village summary (sum of ['단지수'] 0). *)
Lemma process_data_unpriced_record :
  match process_data [[(K_NAME, PStr (u "가락마을 1단지"))]] with
  | Ok r => total_count r = 1%nat /\ sum_village_counts (village_summary r) = 0%nat
  | Err _ => False
  end.
Proof. vm_compute. split; reflexivity. Qed.

Lemma dict_get_default_setdefault {A} (d : list (pystr * A)) k dflt v :
  dict_get_default (match dict_get d k with Some _ => d | None => dict_set d k dflt end) v dflt
  = dict_get_default d v dflt.
Proof.
  destruct (dict_get d k) eqn:G; [reflexivity|]. unfold dict_get_default.
  case_key v k.
  - rewrite dict_get_set_same, G. reflexivity.
  - rewrite dict_get_set_other by (intro E'; subst; rewrite pystr_eqb_refl in E; discriminate).
    reflexivity.
Qed.

Lemma dict_get_default_set {A} (d : list (pystr * A)) k x v dflt :
  dict_get_default (dict_set d k x) v dflt =
  if pystr_eqb k v then x else dict_get_default d v dflt.
Proof.
  unfold dict_get_default. case_key k v.
  - rewrite dict_get_set_same. reflexivity.
  - rewrite dict_get_set_other; [reflexivity|].
    intro E'; subst; rewrite pystr_eqb_refl in E; discriminate.
Qed.

Lemma process_item_village_stats st item st' v :
  process_item st item = Ok st' ->
  List.length (dict_get_default (st_village_stats st') v []) =
  (List.length (dict_get_default (st_village_stats st) v []) +
   if village_priced v item then 1 else 0)%nat.
Proof.
  intro H. unfold process_item in H. cbv zeta in H. unfold village_priced.
  destruct (classify_village _) as [w|] eqn:Hv; [|discriminate]. cbn [bind] in H.
  destruct (classify_price_range _) as [p|] eqn:Hp; [|discriminate]. cbn [bind] in H.
  destruct (classify_area_type _) as [a|] eqn:Ha; [|discriminate]. cbn [bind] in H.
  injection H as <-. cbn [st_village_stats].
  destruct (truthy (dict_get_default item K_PRICE (PNum 0))).
  - rewrite dict_get_default_set, andb_true_r.
    destruct (pystr_eqb w v) eqn:E.
    + apply pystr_eqb_eq in E. subst w.
      rewrite dict_get_default_setdefault, length_app. cbn [List.length]. reflexivity.
    + rewrite dict_get_default_setdefault. lia.
  - rewrite andb_false_r, dict_get_default_setdefault. lia.
Qed.

Lemma process_loop_village_stats data : forall st st' v,
  process_loop st data = Ok st' ->
  List.length (dict_get_default (st_village_stats st') v []) =
  (List.length (dict_get_default (st_village_stats st) v []) + village_count data v)%nat.
Proof.
  induction data as [|item rest IH]; intros st st' v H.
  - injection H as <-. unfold village_count. cbn. lia.
  - cbn [process_loop] in H. destruct (process_item st item) as [st1|] eqn:H1; [|discriminate].
    cbn [bind] in H. rewrite (IH _ _ v H), (process_item_village_stats _ _ _ v H1).
    unfold village_count. cbn [filter]. destruct (village_priced v item); cbn [List.length]; lia.
Qed.

Lemma summarize_villages total stats : forall summary out,
  NoDup (map fst stats) ->
  (forall k, In k (map fst stats) -> dict_get summary k = None) ->
  summarize total summary stats = Ok out ->
  forall v,
    (In v (map fst stats) ->
     match dict_get out v with
     | Some e => ve_count e = List.length (dict_get_default stats v []) /\
                 dict_get_default stats v [] <> []
     | None => dict_get_default stats v [] = []
     end) /\
    (~ In v (map fst stats) -> dict_get out v = dict_get summary v).
Proof.
  induction stats as [|[village prices] t IH]; intros summary out Hnd Hfresh H v.
  - injection H as <-. split; [intros []|reflexivity].
  - inversion Hnd as [|? ? Hnin Hnd']; subst. cbn [map fst] in Hnin, Hfresh |- *.
    assert (D : forall x, dict_get_default ((village, prices) :: t) v x =
                  if pystr_eqb v village then prices else dict_get_default t v x)
      by (intro x; unfold dict_get_default; cbn [dict_get];
          destruct (pystr_eqb v village); reflexivity).
    cbn [summarize] in H. destruct prices as [|x xs].
    + destruct (IH summary out Hnd' (fun k Hk => Hfresh k (or_intror Hk)) H v) as [I1 I2].
      rewrite D. case_key v village.
      * split; [intros _|intros Hn; exfalso; apply Hn; left; reflexivity].
        rewrite (I2 Hnin), (Hfresh village (or_introl eq_refl)). reflexivity.
      * split.
        -- intros [Hv|Hv]; [subst; rewrite pystr_eqb_refl in E; discriminate|]. exact (I1 Hv).
        -- intro Hn. apply I2. intro Hv. apply Hn. right. exact Hv.
    + destruct (py_sum 0 (x :: xs)) as [s|] eqn:Hs; [|discriminate]. cbn [bind] in H.
      match type of H with summarize _ (dict_set _ _ ?e) _ = _ =>
        set (entry := e) in H end.
      assert (Hfresh' : forall k, In k (map fst t) ->
                dict_get (dict_set summary village entry) k = None).
      { intros k Hk. rewrite dict_get_set_other.
        - apply Hfresh. right. exact Hk.
        - intro E. subst. contradiction. }
      destruct (IH _ out Hnd' Hfresh' H v) as [I1 I2].
      rewrite D. case_key v village.
      * split; [intros _|intros Hn; exfalso; apply Hn; left; reflexivity].
        rewrite (I2 Hnin), dict_get_set_same. split; [reflexivity|discriminate].
      * split.
        -- intros [Hv|Hv]; [subst; rewrite pystr_eqb_refl in E; discriminate|]. exact (I1 Hv).
        -- intro Hn. rewrite I2 by (intro Hv; apply Hn; right; exact Hv). apply dict_get_set_other.
           intro E'. subst. rewrite pystr_eqb_refl in E. discriminate.
Qed.

Lemma filter_length_eq {A} (f : A -> bool) l :
  List.length (filter f l) = List.length l <-> Forall (fun x => f x = true) l.
Proof.
  induction l as [|x l IH]; cbn [filter List.length]; [split; [constructor|reflexivity]|].
  destruct (f x) eqn:F; cbn [List.length].
  - split; [intro H; constructor; [exact F|apply IH; lia]|].
    intro H. inversion H; subst. f_equal. apply IH. assumption.
  - split; [intro H; pose proof (filter_length_le f l); lia|].
    intro H. inversion H; subst. congruence.
Qed.

(** C3 (amended): each village's ['단지수'] is the number of records
    classified into that village with a truthy price, and a village without
    such a record is absent from [village_summary]; the sum of ['단지수'] is
    the number of priced records, at most [total_count], and equal to it
    exactly when every record has a truthy price. *)
Theorem process_data_village_counts data r :
  process_data data = Ok r ->
  (forall v, match dict_get (village_summary r) v with
     | Some e => ve_count e = village_count data v /\ (1 <= village_count data v)%nat
     | None => village_count data v = 0%nat
     end) /\
  sum_village_counts (village_summary r) = count_priced data /\
  (count_priced data <= total_count r)%nat /\
  (count_priced data = total_count r <->
   Forall (fun item => truthy (dict_get_default item K_PRICE (PNum 0)) = true) data).
Proof.
  intro H. destruct (process_data_inv _ _ H) as (st & Hl & Hs & _ & _ & Ht).
  destruct (process_loop_inv _ _ _ Hl) as (_ & _ & Hvs & Hnd & _).
  specialize (Hnd (NoDup_nil _)).
  split; [|split; [|split]].
  - intro v. pose proof (process_loop_village_stats _ _ _ v Hl) as Hc.
    cbn [init_state st_village_stats] in Hc.
    replace (List.length (dict_get_default [] v [])) with 0%nat in Hc by reflexivity.
    destruct (summarize_villages _ _ [] _ Hnd (fun _ _ => eq_refl) Hs v) as [I1 I2].
    destruct (in_dec (list_eq_dec Z.eq_dec) v (map fst (st_village_stats st))) as [Hin|Hnin].
    + specialize (I1 Hin). destruct (dict_get (village_summary r) v) as [e|].
      * destruct I1 as [I1 I1']. split; [lia|].
        destruct (dict_get_default (st_village_stats st) v []); [congruence|].
        cbn [List.length] in Hc. lia.
      * rewrite I1 in Hc. cbn in Hc. lia.
    + rewrite (I2 Hnin). cbn [dict_get].
      unfold dict_get_default in Hc. rewrite (dict_get_not_in_None _ _ Hnin) in Hc.
      cbn in Hc. lia.
  - unfold sum_village_counts.
    rewrite (summarize_count _ _ [] _ Hnd (fun _ _ => eq_refl) Hs).
    rewrite Hvs. reflexivity.
  - rewrite Ht. unfold count_priced. apply filter_length_le.
  - rewrite Ht. unfold count_priced. apply filter_length_eq.
Qed.

Lemma process_data_village_counts_witness :
  exists r, process_data sample_records = Ok r /\
  (forall v, match dict_get (village_summary r) v with
     | Some e => ve_count e = village_count sample_records v /\
                 (1 <= village_count sample_records v)%nat
     | None => village_count sample_records v = 0%nat
     end) /\
  sum_village_counts (village_summary r) = count_priced sample_records /\
  (count_priced sample_records <= total_count r)%nat /\
  (count_priced sample_records = total_count r <->
   Forall (fun item => truthy (dict_get_default item K_PRICE (PNum 0)) = true) sample_records).
Proof.
  eexists. split; [reflexivity|].
  apply (process_data_village_counts sample_records). reflexivity.
Defined.

(** ** Labelled records *)

Lemma label_keys_distinct :
  K_VILLAGE <> K_PRANGE /\ K_VILLAGE <> K_ATYPE /\ K_PRANGE <> K_ATYPE.
Proof. vm_compute. repeat split; discriminate. Qed.

Lemma label_item_get item v p a k :
  dict_get (label_item item v p a) k =
  if pystr_eqb k K_ATYPE then Some (PStr a)
  else if pystr_eqb k K_PRANGE then Some (PStr p)
  else if pystr_eqb k K_VILLAGE then Some (PStr v)
  else dict_get item k.
Proof.
  unfold label_item.
  case_key k K_ATYPE; [apply dict_get_set_same|rewrite dict_get_set_other by
    (intro E'; subst; rewrite pystr_eqb_refl in E; discriminate)].
  case_key k K_PRANGE; [apply dict_get_set_same|rewrite dict_get_set_other by
    (intro E'; subst; rewrite pystr_eqb_refl in E0; discriminate)].
  case_key k K_VILLAGE; [apply dict_get_set_same|rewrite dict_get_set_other by
    (intro E'; subst; rewrite pystr_eqb_refl in E1; discriminate)].
  reflexivity.
Qed.

Lemma pystr_eqb_neq a b : a <> b -> pystr_eqb a b = false.
Proof.
  intro H. destruct (pystr_eqb a b) eqn:E; [apply pystr_eqb_eq in E; contradiction|reflexivity].
Qed.

Lemma label_item_get_labels item v p a :
  dict_get (label_item item v p a) K_VILLAGE = Some (PStr v) /\
  dict_get (label_item item v p a) K_PRANGE = Some (PStr p) /\
  dict_get (label_item item v p a) K_ATYPE = Some (PStr a).
Proof.
  destruct label_keys_distinct as (D1 & D2 & D3).
  rewrite !label_item_get, !pystr_eqb_refl.
  rewrite (pystr_eqb_neq _ _ D1), (pystr_eqb_neq _ _ D2), (pystr_eqb_neq _ _ D3).
  repeat split.
Qed.

Lemma label_item_absent item v p a :
  dict_get item K_VILLAGE = None -> dict_get item K_PRANGE = None ->
  dict_get item K_ATYPE = None ->
  label_item item v p a =
  item ++ [(K_VILLAGE, PStr v); (K_PRANGE, PStr p); (K_ATYPE, PStr a)].
Proof.
  intros H1 H2 H3. destruct label_keys_distinct as (D1 & D2 & D3).
  unfold label_item.
  assert (G2 : dict_get (dict_set item K_VILLAGE (PStr v)) K_PRANGE = None)
    by (rewrite dict_get_set_other by congruence; exact H2).
  assert (G3 : dict_get (dict_set (dict_set item K_VILLAGE (PStr v)) K_PRANGE (PStr p))
                 K_ATYPE = None)
    by (rewrite !dict_get_set_other by congruence; exact H3).
  rewrite (dict_set_absent _ _ _ G3), (dict_set_absent _ _ _ G2), (dict_set_absent _ _ _ H1).
  rewrite <- !app_assoc. reflexivity.
Qed.

(** ** Records the code accepts *)


















(** C8, counterexample: an input field named ['마을분류'] is not kept with
    its original value: the spread [{**item, '마을분류': village, ...}]
    overwrites it with the computed label. *)
Lemma process_data_overwrites_label_field :
  match process_data [[(K_VILLAGE, PStr (u "가락마을"))]] with
  | Ok r => processed_data r =
            [[(K_VILLAGE, PStr FALLBACK); (K_PRANGE, PStr UNKNOWN); (K_ATYPE, PStr UNKNOWN)]]
  | Err _ => False
  end.
Proof. vm_compute. reflexivity. Qed.

(** C8 (amended): whenever [process_data] returns, each entry of
    [processed_data] holds under ['마을분류'], ['가격구간'] and ['평형구간'] the
    labels computed from its record's name, price and area, whatever the
    record held under those keys; it keeps every other field of the record
    with its original value; and, when the record has none of the three
    keys, it is the original record with the three label fields appended in
    this order. *)
Theorem process_data_preserves_fields data r :
  process_data data = Ok r ->
  Forall2 (fun item out =>
    exists v p a,
      classify_village (dict_get_default item K_NAME (PStr [])) = Ok v /\
      classify_price_range (dict_get_default item K_PRICE (PNum 0)) = Ok p /\
      classify_area_type (dict_get_default item K_AREA (PNum 0)) = Ok a /\
      dict_get out K_VILLAGE = Some (PStr v) /\
      dict_get out K_PRANGE = Some (PStr p) /\
      dict_get out K_ATYPE = Some (PStr a) /\
      (forall k, k <> K_VILLAGE -> k <> K_PRANGE -> k <> K_ATYPE ->
         dict_get out k = dict_get item k) /\
      (dict_get item K_VILLAGE = None -> dict_get item K_PRANGE = None ->
       dict_get item K_ATYPE = None ->
       out = item ++ [(K_VILLAGE, PStr v); (K_PRANGE, PStr p); (K_ATYPE, PStr a)]))
    data (processed_data r).
Proof.
  intro H. destruct (process_data_inv _ _ H) as (st & Hl & _ & Hpd & _ & _).
  destruct (process_loop_inv _ _ _ Hl) as ([outs [Ho Hf2]] & _).
  rewrite Hpd, Ho. cbn [st_processed init_state app].
  eapply Forall2_impl; [|exact Hf2].
  intros item out (v & p & a & Hv & Hp & Ha & ->). exists v, p, a.
  destruct (label_item_get_labels item v p a) as (G1 & G2 & G3).
  do 6 (split; [assumption|]). split.
  - intros k D1 D2 D3. rewrite label_item_get.
    rewrite (pystr_eqb_neq _ _ D3), (pystr_eqb_neq _ _ D2), (pystr_eqb_neq _ _ D1).
    reflexivity.
  - intros H1 H2 H3. apply label_item_absent; assumption.
Qed.

Definition relabel_records : list record :=
  [ [(K_VILLAGE, PStr (u "가락마을")); (K_NAME, PStr (u "해밀마을 1단지"));
     (K_PRICE, PNum 35000)];
    [(K_NAME, PStr (u "가락마을 1단지")); (K_PRICE, PNone); (K_AREA, PStr [])] ].


Lemma process_data_preserves_fields_witness :
  exists r, process_data relabel_records = Ok r /\
  Forall2 (fun item out =>
    exists v p a,
      classify_village (dict_get_default item K_NAME (PStr [])) = Ok v /\
      classify_price_range (dict_get_default item K_PRICE (PNum 0)) = Ok p /\
      classify_area_type (dict_get_default item K_AREA (PNum 0)) = Ok a /\
      dict_get out K_VILLAGE = Some (PStr v) /\
      dict_get out K_PRANGE = Some (PStr p) /\
      dict_get out K_ATYPE = Some (PStr a) /\
      (forall k, k <> K_VILLAGE -> k <> K_PRANGE -> k <> K_ATYPE ->
         dict_get out k = dict_get item k) /\
      (dict_get item K_VILLAGE = None -> dict_get item K_PRANGE = None ->
       dict_get item K_ATYPE = None ->
       out = item ++ [(K_VILLAGE, PStr v); (K_PRANGE, PStr p); (K_ATYPE, PStr a)]))
    relabel_records (processed_data r).
Proof.
  eexists. split; [reflexivity|].
  apply (process_data_preserves_fields relabel_records). reflexivity.
Defined.

(** * Further properties of the processor *)

(** ** [export_classification_schema]: the exported label sets *)

(** [villages = list(self.village_keywords.values()) + ['기타(도시형/오피스텔)']] *)
Definition schema_villages : list pystr := map snd village_keywords ++ [FALLBACK].

(** The names of the exported [price_ranges] and [area_types]. *)
Definition schema_price_names : list pystr := map (fun r => snd r) price_ranges.
Definition schema_area_names : list pystr := map (fun r => snd r) area_types.

Lemma match_keyword_in kws s v : match_keyword kws s = Some v -> In v (map snd kws).
Proof.
  induction kws as [|[k v'] t IH]; simpl; [discriminate|].
  destruct (contains k s); [intro E; injection E as <-; left; reflexivity|].
  intro H; right; exact (IH H).
Qed.


Lemma scan_result_in (ranges : list (Q * Q * pystr)) p l :
  scan_price_ranges ranges p = Ok l -> l = TOP_BAND \/ In l (map (fun r => snd r) ranges).
Proof.
  induction ranges as [|[[lo hi] name] t IH]; intro H.
  - simpl in H. injection H as <-. left; reflexivity.
  - cbn [scan_price_ranges] in H. unfold py_le, py_lt in H.
    destruct p as [|q|s]; cbn [bind] in H; try discriminate H.
    destruct (Qle_bool lo q).
    + destruct (negb (Qle_bool hi q)).
      * injection H as <-. right; left; reflexivity.
      * destruct (IH H); [left|right; right]; assumption.
    + destruct (IH H); [left|right; right]; assumption.
Qed.

(** Ranges listed in increasing order: every upper bound is at most the lower
    bound of every later range. *)
Fixpoint ranges_sorted (l : list (Q * Q * pystr)) : bool :=
  match l with
  | [] => true
  | (lo, hi, _) :: t => forallb (fun r => Qle_bool hi (fst (fst r))) t && ranges_sorted t
  end.

Lemma scan_in_sorted l lo hi name p :
  ranges_sorted l = true -> In (lo, hi, name) l -> lo <= p -> p < hi ->
  scan_price_ranges l (PNum p) = Ok name.
Proof.
  intros Hs Hin Hlo Hhi. induction l as [|[[lo' hi'] n'] t IH]; [destruct Hin|].
  simpl in Hs. apply andb_true_iff in Hs as [Hall Hs].
  destruct Hin as [E|Hin].
  - injection E as -> -> ->. simpl.
    rewrite Qle_bool_true by exact Hlo. cbn [bind].
    rewrite Qle_bool_false by exact Hhi. reflexivity.
  - rewrite forallb_forall in Hall. pose proof (Hall _ Hin) as Hh.
    apply Qle_bool_iff in Hh. simpl in Hh.
    simpl. destruct (Qle_bool lo' p); cbn [bind]; [|apply IH; assumption].
    rewrite Qle_bool_true by (apply Qle_trans with lo; assumption).
    apply IH; assumption.
Qed.

Lemma scan_above l p :
  Forall (fun r => snd (fst r) <= p) l -> scan_price_ranges l (PNum p) = Ok TOP_BAND.
Proof.
  intro H. induction H as [|[[lo hi] n] t Hh _ IH]; [reflexivity|].
  simpl in Hh |- *. destruct (Qle_bool lo p); cbn [bind]; [|exact IH].
  rewrite Qle_bool_true by exact Hh. exact IH.
Qed.

(** [classify_village] only ever returns a village of the exported schema. *)
Theorem classify_village_in_schema v l :
  classify_village v = Ok l -> In l schema_villages.
Proof.
  unfold schema_villages. intro H. destruct v as [| |s]; try discriminate H.
  unfold classify_village in H; cbv zeta in H.
  destruct (contains (u "우빈가온") (strip s)).
  { injection H as <-. apply in_or_app. right. left. reflexivity. }
  destruct (match_keyword village_keywords (strip s)) as [w|] eqn:M.
  { injection H as <-. apply in_or_app. left. exact (match_keyword_in _ _ _ M). }
  destruct (contains (u "도담") (strip s)); injection H as <-; apply in_or_app;
    [left; simpl; tauto|right; left; reflexivity].
Qed.

Lemma classify_village_in_schema_witness :
  In (u "가락마을") schema_villages.
Proof. apply (classify_village_in_schema (PStr (u "가락마을 1단지"))). vm_compute. reflexivity. Defined.

(** [classify_price_range] returns either ['정보없음'] or the name of an
    exported price range, and ['정보없음'] is not among the exported ranges. *)
Theorem classify_price_range_in_schema v l :
  classify_price_range v = Ok l ->
  (l = UNKNOWN \/ In l schema_price_names) /\ ~ In UNKNOWN schema_price_names.
Proof.
  intro H. split; [|vm_compute; intuition discriminate].
  unfold classify_price_range in H. destruct (truthy v); simpl negb in H; cbv iota in H.
  - destruct (scan_result_in _ _ _ H) as [->|Hin]; right; [|exact Hin].
    vm_compute. tauto.
  - injection H as <-. left. reflexivity.
Qed.

Lemma classify_price_range_in_schema_witness :
  (u "3억대" = UNKNOWN \/ In (u "3억대") schema_price_names) /\ ~ In UNKNOWN schema_price_names.
Proof. apply (classify_price_range_in_schema (PNum 35000)). vm_compute. reflexivity. Defined.

(** [classify_area_type] returns either ['정보없음'] or the name of an exported
    area type. *)
Theorem classify_area_type_in_schema v l :
  classify_area_type v = Ok l -> l = UNKNOWN \/ In l schema_area_names.
Proof.
  intro H. unfold classify_area_type in H. destruct (truthy v); simpl negb in H; cbv iota in H.
  - right. destruct (py_le v (PNum 85)) as [[|]|]; cbn [bind] in H; try discriminate H;
      [injection H as <-; simpl; tauto|].
    destruct (py_le v (PNum 115)) as [[|]|]; cbn [bind] in H; try discriminate H;
      [injection H as <-; simpl; tauto|].
    destruct (py_le v (PNum 175)) as [[|]|]; cbn [bind] in H; try discriminate H;
      injection H as <-; simpl; tauto.
  - injection H as <-. left. reflexivity.
Qed.

Lemma classify_area_type_in_schema_witness :
  MEDIUM = UNKNOWN \/ In MEDIUM schema_area_names.
Proof. apply (classify_area_type_in_schema (PNum 99)). vm_compute. reflexivity. Defined.

(** A non-zero price inside a configured interval [min_price, max_price) is
    classified as that interval's name. *)
Theorem classify_price_range_in_interval lo hi name p :
  In (lo, hi, name) price_ranges -> lo <= p -> p < hi -> ~ p == 0 ->
  classify_price_range (PNum p) = Ok name.
Proof.
  intros Hin Hlo Hhi Hp. unfold classify_price_range. rewrite truthy_num by exact Hp.
  cbn [negb]. apply (scan_in_sorted _ lo hi); [reflexivity|assumption..].
Qed.

Lemma classify_price_range_in_interval_witness :
  classify_price_range (PNum 45500) = Ok (u "4억대").
Proof.
  apply (classify_price_range_in_interval 40000 49999);
    [simpl; tauto|discriminate|reflexivity|discriminate].
Defined.

(** Prices at or above the last literal upper bound 200000 still get the top
    band ['9억 이상'], through the final return. *)
Theorem classify_price_range_above_table p :
  200000 <= p -> classify_price_range (PNum p) = Ok TOP_BAND.
Proof.
  intro Hp. unfold classify_price_range.
  rewrite truthy_num by (intro E; rewrite E in Hp; apply Hp; reflexivity). cbn [negb].
  apply scan_above. repeat constructor; simpl; apply Qle_trans with 200000;
    try exact Hp; discriminate.
Qed.

Lemma classify_price_range_above_table_witness :
  classify_price_range (PNum 350000) = Ok TOP_BAND.
Proof. apply classify_price_range_above_table. discriminate. Defined.

(** ** Whitespace around a complex name *)

Lemma lstrip_spaces ws s : forallb is_space ws = true -> lstrip (ws ++ s) = lstrip s.
Proof.
  induction ws as [|c ws IH]; simpl; [reflexivity|].
  intro H. apply andb_true_iff in H as [Hc H]. rewrite Hc. exact (IH H).
Qed.

Lemma lstrip_app s t :
  lstrip (s ++ t) = if forallb is_space s then lstrip t else lstrip s ++ t.
Proof.
  induction s as [|c s IH]; simpl; [reflexivity|].
  destruct (is_space c); simpl; [exact IH|reflexivity].
Qed.

Lemma forallb_rev {A} (f : A -> bool) l : forallb f (rev l) = forallb f l.
Proof.
  induction l as [|x l IH]; simpl; [reflexivity|].
  rewrite forallb_app, IH. simpl. rewrite andb_true_r, andb_comm. reflexivity.
Qed.

Lemma rstrip_spaces s ws : forallb is_space ws = true -> rstrip (s ++ ws) = rstrip s.
Proof.
  intro H. unfold rstrip. rewrite rev_app_distr, lstrip_spaces; [reflexivity|].
  rewrite forallb_rev. exact H.
Qed.

Lemma strip_pad ws1 s ws2 :
  forallb is_space ws1 = true -> forallb is_space ws2 = true ->
  strip (ws1 ++ s ++ ws2) = strip s.
Proof.
  intros H1 H2. unfold strip. rewrite lstrip_spaces by exact H1.
  rewrite lstrip_app. destruct (forallb is_space s) eqn:Hs.
  - assert (E : forall w, forallb is_space w = true -> lstrip w = []).
    { intros w Hw. rewrite <- (app_nil_r w). rewrite lstrip_spaces by exact Hw.
      reflexivity. }
    rewrite (E ws2 H2), (E s Hs). reflexivity.
  - apply rstrip_spaces. exact H2.
Qed.

(** Leading and trailing whitespace ([str.isspace] characters, ASCII or not)
    never changes the village of a complex name. *)
Theorem classify_village_ignores_padding ws1 s ws2 :
  forallb is_space ws1 = true -> forallb is_space ws2 = true ->
  classify_village (PStr (ws1 ++ s ++ ws2)) = classify_village (PStr s).
Proof.
  intros H1 H2. unfold classify_village. rewrite (strip_pad _ _ _ H1 H2). reflexivity.
Qed.

Lemma classify_village_ignores_padding_witness :
  classify_village (PStr ([32%Z; 9%Z] ++ u "가락마을 1단지" ++ [12288%Z])) =
  classify_village (PStr (u "가락마을 1단지")).
Proof. apply classify_village_ignores_padding; reflexivity. Defined.

(** ** Monotonicity of the size bands *)

(** Position of a size label in [area_types]. *)
Definition area_rank (l : pystr) : nat :=
  if pystr_eqb l SMALL then 0
  else if pystr_eqb l MEDIUM then 1
  else if pystr_eqb l LARGE then 2
  else 3.

Lemma Qle_bool_false_lt x y : Qle_bool x y = false -> y < x.
Proof.
  intro H. apply Qnot_le_lt. intro H'. apply Qle_bool_iff in H'. congruence.
Qed.

(** A larger (non-zero) area never gets a smaller size band. *)
Theorem classify_area_type_monotone a b la lb :
  ~ a == 0 -> ~ b == 0 -> a <= b ->
  classify_area_type (PNum a) = Ok la -> classify_area_type (PNum b) = Ok lb ->
  (area_rank la <= area_rank lb)%nat.
Proof.
  intros Ha Hb Hab HA HB.
  rewrite classify_area_type_num in HA by exact Ha.
  rewrite classify_area_type_num in HB by exact Hb.
  injection HA as <-. injection HB as <-.
  destruct (Qle_bool a 85) eqn:A1; [|apply Qle_bool_false_lt in A1];
  destruct (Qle_bool a 115) eqn:A2; try apply Qle_bool_false_lt in A2;
  destruct (Qle_bool a 175) eqn:A3; try apply Qle_bool_false_lt in A3;
  destruct (Qle_bool b 85) eqn:B1; try apply Qle_bool_false_lt in B1;
  destruct (Qle_bool b 115) eqn:B2; try apply Qle_bool_false_lt in B2;
  destruct (Qle_bool b 175) eqn:B3; try apply Qle_bool_false_lt in B3;
  try (vm_compute; lia);
  exfalso;
  match goal with
  | Hc : Qle_bool b ?c = true, Hlt : ?c < a |- _ =>
    apply Qle_bool_iff in Hc;
    apply (Qlt_irrefl a); apply Qle_lt_trans with b; [exact Hab|];
    apply Qle_lt_trans with c; assumption
  end.
Qed.

Lemma classify_area_type_monotone_witness :
  (area_rank MEDIUM <= area_rank LARGE)%nat.
Proof.
  apply (classify_area_type_monotone 99 120); try discriminate; vm_compute; reflexivity.
Defined.

(** ** The price distribution counts the price labels of [processed_data] *)

(** Number of processed records whose ['가격구간'] is [b]. *)
Definition count_label (outs : list record) (b : pystr) : nat :=
  List.length (filter (fun out => match dict_get out K_PRANGE with
                                  | Some (PStr l) => pystr_eqb l b
                                  | _ => false
                                  end) outs).

Lemma count_label_app o1 o2 b :
  count_label (o1 ++ o2) b = (count_label o1 b + count_label o2 b)%nat.
Proof. unfold count_label. rewrite filter_app, length_app. reflexivity. Qed.

Definition counts_match (ps : list (pystr * nat)) (outs : list record) : Prop :=
  forall b, dict_get ps b =
    if Nat.eqb (count_label outs b) 0 then None else Some (count_label outs b).

Lemma process_item_price_stats st item st' :
  process_item st item = Ok st' ->
  exists out p, st_processed st' = st_processed st ++ [out] /\
    dict_get out K_PRANGE = Some (PStr p) /\
    forall b, dict_get (st_price_stats st') b =
      if pystr_eqb b p then Some (S (dict_get_default (st_price_stats st) p 0%nat))
      else dict_get (st_price_stats st) b.
Proof.
  intro H. unfold process_item in H. cbv zeta in H.
  destruct (classify_village _) as [v|]; [|discriminate]. cbn [bind] in H.
  destruct (classify_price_range _) as [p|]; [|discriminate]. cbn [bind] in H.
  destruct (classify_area_type _) as [a|]; [|discriminate]. cbn [bind] in H.
  injection H as <-. exists (label_item item v p a), p. cbn [st_processed st_price_stats].
  split; [reflexivity|]. split; [apply label_item_get_labels|].
  set (ps := st_price_stats st).
  set (ps1 := match dict_get ps p with Some _ => ps | None => dict_set ps p 0%nat end).
  assert (G : dict_get_default ps1 p 0%nat = dict_get_default ps p 0%nat).
  { subst ps1. unfold dict_get_default. destruct (dict_get ps p) eqn:E; cbv iota.
    - rewrite E. reflexivity.
    - rewrite dict_get_set_same. reflexivity. }
  intro b. case_key b p.
  - rewrite dict_get_set_same, G. reflexivity.
  - assert (Hne : b <> p) by (intro E'; subst; rewrite pystr_eqb_refl in E; discriminate).
    rewrite dict_get_set_other by exact Hne.
    subst ps1. destruct (dict_get ps p); [reflexivity|].
    apply dict_get_set_other. exact Hne.
Qed.

Lemma process_loop_counts_match data : forall st st',
  process_loop st data = Ok st' ->
  counts_match (st_price_stats st) (st_processed st) ->
  counts_match (st_price_stats st') (st_processed st').
Proof.
  induction data as [|item rest IH]; intros st st' H Hm.
  - injection H as <-. exact Hm.
  - simpl in H. destruct (process_item st item) as [st1|] eqn:H1; [|discriminate].
    cbn [bind] in H. apply (IH st1 _ H).
    destruct (process_item_price_stats _ _ _ H1) as (out & p & Hpr & Hout & Hps).
    intro b. rewrite Hps, Hpr, count_label_app.
    assert (Hc : count_label [out] b = if pystr_eqb p b then 1%nat else 0%nat).
    { unfold count_label. simpl. rewrite Hout. destruct (pystr_eqb p b); reflexivity. }
    rewrite Hc. case_key b p.
    + rewrite pystr_eqb_refl. unfold dict_get_default. rewrite (Hm p).
      destruct (Nat.eqb (count_label (st_processed st) p) 0) eqn:Z0;
        [apply Nat.eqb_eq in Z0; rewrite Z0|]; simpl;
        rewrite ?Nat.add_1_r; reflexivity.
    + assert (Hf : pystr_eqb p b = false).
      { destruct (pystr_eqb p b) eqn:E'; [|reflexivity].
        apply pystr_eqb_eq in E'. subst. rewrite pystr_eqb_refl in E. discriminate. }
      rewrite Hf, Nat.add_0_r. apply Hm.
Qed.

Lemma price_distribution_counts data r :
  process_data data = Ok r -> counts_match (price_distribution r) (processed_data r).
Proof.
  intro H. destruct (process_data_inv _ _ H) as (st & Hl & _ & Hpd & Hps & _).
  rewrite Hpd, Hps. apply (process_loop_counts_match _ _ _ Hl).
  intro b. reflexivity.
Qed.

(** [price_distribution] holds exactly the price labels occurring in
    [processed_data], each with the number of records that carry it. *)
Theorem process_data_price_distribution_counts data r :
  process_data data = Ok r ->
  forall b, dict_get (price_distribution r) b =
    if Nat.eqb (count_label (processed_data r) b) 0 then None
    else Some (count_label (processed_data r) b).
Proof. apply price_distribution_counts. Qed.

Lemma process_data_price_distribution_counts_witness :
  exists r, process_data sample_records = Ok r /\
    dict_get (price_distribution r) TOP_BAND =
      if Nat.eqb (count_label (processed_data r) TOP_BAND) 0 then None
      else Some (count_label (processed_data r) TOP_BAND).
Proof.
  eexists. split; [reflexivity|].
  apply (process_data_price_distribution_counts sample_records). reflexivity.
Defined.

(** ** Processing a concatenation of batches *)









(** * The extractor of [main.py]: requests with retry and pagination *)

(** A JSON value as [response.json()] returns it; an object is a dict with
    the keys in document order. *)
#[warnings="-register-all"]
Inductive json :=
| JNull
| JBool (b : bool)
| JNum (q : Q)
| JStr (s : pystr)
| JArr (l : list json)
| JObj (kvs : list (pystr * json)).

(** Truthiness of a JSON value. *)
Definition jtruthy (v : json) : bool :=
  match v with
  | JNull => false
  | JBool b => b
  | JNum q => negb (Qeq_bool q 0)
  | JStr s => match s with [] => false | _ => true end
  | JArr l => match l with [] => false | _ => true end
  | JObj kvs => match kvs with [] => false | _ => true end
  end.

(** [v.get(k, default)]: defined on dicts only. *)
Definition json_get (v : json) (k : pystr) (dflt : json) : res json :=
  match v with
  | JObj kvs => Ok (dict_get_default kvs k dflt)
  | _ => Err AttributeError
  end.

(** The items [list.extend(v)] appends: a list's elements, a dict's keys,
    a string's characters; [TypeError] for a value that is not iterable. *)
Definition extend_items (v : json) : res (list json) :=
  match v with
  | JArr l => Ok l
  | JObj kvs => Ok (map (fun kv => JStr (fst kv)) kvs)
  | JStr s => Ok (map (fun c => JStr [c]) s)
  | _ => Err TypeError
  end.

(** [str(n)] for an int. *)
Fixpoint uint_digits (d : Decimal.uint) : pystr :=
  match d with
  | Decimal.Nil => []
  | Decimal.D0 r => 48%Z :: uint_digits r
  | Decimal.D1 r => 49%Z :: uint_digits r
  | Decimal.D2 r => 50%Z :: uint_digits r
  | Decimal.D3 r => 51%Z :: uint_digits r
  | Decimal.D4 r => 52%Z :: uint_digits r
  | Decimal.D5 r => 53%Z :: uint_digits r
  | Decimal.D6 r => 54%Z :: uint_digits r
  | Decimal.D7 r => 55%Z :: uint_digits r
  | Decimal.D8 r => 56%Z :: uint_digits r
  | Decimal.D9 r => 57%Z :: uint_digits r
  end.

Definition str_int (z : Z) : pystr :=
  match z with
  | Z0 => [48%Z]
  | Zpos p => uint_digits (Pos.to_uint p)
  | Zneg p => 45%Z :: uint_digits (Pos.to_uint p)
  end.

(** What one [requests.get(url, ...)], [raise_for_status()] and
    [response.json()] sequence yields: a JSON value; a [RequestException]
    from the request or its status; a [RequestException] from decoding the
    body ([requests.JSONDecodeError]), raised after the rate-limit sleep; or
    another exception. *)
Inductive outcome :=
| AJson (j : json)
| AReqExc
| ABadJson
| AOtherExc.

Inductive netexc :=
| PyErr (e : exn)
| RequestException
| OtherException.

(** The observable effects: requests sent and [time.sleep] calls. *)
Inductive event :=
| EGet (url : pystr)
| ESleep (secs : Q).

Record world := mkWorld { w_count : nat; w_trace : list event }.

Inductive ires (A : Type) :=
| IOk (a : A)
| IErr (e : netexc).
Arguments IOk {A} a.
Arguments IErr {A} e.

Definition io (A : Type) := world -> ires A * world.

Definition iret {A} (a : A) : io A := fun w => (IOk a, w).

Definition iraise {A} (e : netexc) : io A := fun w => (IErr e, w).

Definition ibind {A B} (m : io A) (k : A -> io B) : io B :=
  fun w =>
    match m w with
    | (IOk a, w') => k a w'
    | (IErr e, w') => (IErr e, w')
    end.

Notation "x <-- m ;;; k" := (ibind m (fun x => k))
  (at level 61, m at next level, right associativity).

Definition ilift {A} (r : res A) : io A :=
  match r with
  | Ok a => iret a
  | Err e => iraise (PyErr e)
  end.

Definition sleep (secs : Q) : io unit :=
  fun w => (IOk tt, mkWorld (w_count w) (w_trace w ++ [ESleep secs])).

Section Extractor.

(** The server: the outcome of the [n]-th request of the run, to [url]. *)
Variable server : nat -> pystr -> outcome.

Definition http_get (url : pystr) : io outcome :=
  fun w => (IOk (server (w_count w) url),
            mkWorld (S (w_count w)) (w_trace w ++ [EGet url])).

(** [self.delay] *)
Definition delay : Q := 1 # 2.

Definition base_url : pystr := u "https://new.land.naver.com/api".

(** The [for attempt in range(max_retries)] loop of [_request_with_retry],
    from [attempt] with [fuel] iterations left. *)
Fixpoint retry_from (url : pystr) (max_retries : Z) (attempt : nat) (fuel : nat)
  : io json :=
  match fuel with
  | O => iret JNull
  | S fuel' =>
    let on_request_exception :=
      if (Z.of_nat attempt <? max_retries - 1)%Z
      then (_ <-- sleep (inject_Z (2 ^ Z.of_nat attempt)) ;;;
            retry_from url max_retries (S attempt) fuel')
      else iraise RequestException in
    o <-- http_get url ;;;
    match o with
    | AJson j => _ <-- sleep delay ;;; iret j
    | ABadJson => _ <-- sleep delay ;;; on_request_exception
    | AReqExc => on_request_exception
    | AOtherExc => iraise OtherException
    end
  end.

(** [_request_with_retry(url, max_retries)]; [None] is [JNull]. *)
Definition request_with_retry (url : pystr) (max_retries : Z) : io json :=
  retry_from url max_retries 0 (Z.to_nat max_retries).

Definition articles_url (complex_no : pystr) (page : Z) (trade_type price_type : pystr)
  : pystr :=
  let url := base_url ++ u "/articles/complex/" ++ complex_no
             ++ u "?realEstateType=APT:ABYG:JGC&page=" ++ str_int page
             ++ u "&priceType=" ++ price_type in
  match trade_type with
  | [] => url
  | _ => url ++ u "&tradeType=" ++ trade_type
  end.

(** [get_articles(complex_no, page, trade_type, price_type)], with
    [complex_no] as its [str()] form. *)
Definition get_articles (complex_no : pystr) (page : Z) (trade_type price_type : pystr)
  : io (json * json) :=
  data <-- request_with_retry (articles_url complex_no page trade_type price_type) 3 ;;;
  articles <-- ilift (json_get data (u "articleList") (JArr [])) ;;;
  more <-- ilift (json_get data (u "isMoreData") (JBool false)) ;;;
  iret (articles, more).

(** The [while True] loop of [get_all_articles_for_complex], from [page] with
    [all_articles = acc]; [None] when [fuel] iterations did not end it. *)
Fixpoint pages_from (complex_no : pystr) (page : Z) (acc : list json) (fuel : nat)
  : io (option (list json)) :=
  match fuel with
  | O => iret None
  | S fuel' =>
    r <-- get_articles complex_no page [] (u "RETAIL") ;;;
    let '(articles, has_more) := r in
    if negb (jtruthy articles) then iret (Some acc) else
    items <-- ilift (extend_items articles) ;;;
    if negb (jtruthy has_more) then iret (Some (acc ++ items))
    else pages_from complex_no (page + 1)%Z (acc ++ items) fuel'
  end.

Definition get_all_articles_for_complex (complex_no : pystr) (fuel : nat)
  : io (option (list json)) :=
  pages_from complex_no 1 [] fuel.

End Extractor.

(** Requests and sleeps of [k] failed attempts from [attempt]. *)
Fixpoint failed_attempts (url : pystr) (attempt k : nat) : list event :=
  match k with
  | O => []
  | S k' => EGet url :: ESleep (inject_Z (2 ^ Z.of_nat attempt))
            :: failed_attempts url (S attempt) k'
  end.

Lemma retry_success server url m j : forall k a f w,
  (Z.of_nat a + Z.of_nat f = m)%Z -> (k < f)%nat ->
  (forall i, (i < k)%nat -> server (w_count w + i)%nat url = AReqExc) ->
  server (w_count w + k)%nat url = AJson j ->
  retry_from server url m a f w
  = (IOk j, mkWorld (w_count w + S k)
                    (w_trace w ++ failed_attempts url a k ++ [EGet url; ESleep delay])).
Proof.
  induction k as [|k IH]; intros a f w Hm Hk Hfail Hok; destruct f as [|f]; try lia.
  - cbn [retry_from]. unfold ibind, http_get at 1. cbn [w_count w_trace].
    rewrite Nat.add_0_r in Hok. rewrite Hok. unfold sleep, iret; cbn [w_count w_trace].
    rewrite Nat.add_1_r, <- app_assoc. reflexivity.
  - cbn [retry_from]. unfold ibind at 1, http_get at 1. cbn [w_count w_trace].
    specialize (Hfail 0%nat ltac:(lia)) as H0. rewrite Nat.add_0_r in H0. rewrite H0.
    replace (Z.of_nat a <? m - 1)%Z with true by (symmetry; apply Z.ltb_lt; lia).
    unfold ibind at 1, sleep at 1. cbn [w_count w_trace].
    rewrite (IH (S a) f); cbn [w_count w_trace].
    + f_equal. f_equal; [lia|]. cbn [failed_attempts]. rewrite <- !app_assoc. reflexivity.
    + lia.
    + lia.
    + intros i Hi. replace (S (w_count w) + i)%nat with (w_count w + S i)%nat by lia.
      apply Hfail; lia.
    + replace (S (w_count w) + k)%nat with (w_count w + S k)%nat by lia. exact Hok.
Qed.

Lemma retry_skip server url m : forall k a f w,
  (Z.of_nat a + Z.of_nat f = m)%Z -> (k < f)%nat ->
  (forall i, (i < k)%nat -> server (w_count w + i)%nat url = AReqExc) ->
  retry_from server url m a f w
  = retry_from server url m (a + k) (f - k)
      (mkWorld (w_count w + k) (w_trace w ++ failed_attempts url a k)).
Proof.
  induction k as [|k IH]; intros a f w Hm Hk Hfail.
  - destruct w as [c t]. cbn [w_count w_trace failed_attempts].
    rewrite !Nat.add_0_r, Nat.sub_0_r, app_nil_r. reflexivity.
  - destruct f as [|f]; [lia|].
    cbn [retry_from]. unfold ibind at 1, http_get at 1. cbn [w_count w_trace].
    specialize (Hfail 0%nat ltac:(lia)) as H0. rewrite Nat.add_0_r in H0. rewrite H0.
    replace (Z.of_nat a <? m - 1)%Z with true by (symmetry; apply Z.ltb_lt; lia).
    unfold ibind at 1, sleep at 1. cbn [w_count w_trace].
    rewrite (IH (S a) f); cbn [w_count w_trace].
    + replace (S a + k)%nat with (a + S k)%nat by lia.
      replace (S (w_count w) + k)%nat with (w_count w + S k)%nat by lia.
      cbn [failed_attempts Nat.sub]. rewrite <- !app_assoc. reflexivity.
    + lia.
    + lia.
    + intros i Hi. replace (S (w_count w) + i)%nat with (w_count w + S i)%nat by lia.
      apply Hfail; lia.
Qed.

(** With [max_retries <= 0] the loop body never runs: no request, no sleep, and
    the result is [None]. *)
Theorem request_with_retry_nonpositive server url m w :
  (m <= 0)%Z -> request_with_retry server url m w = (IOk JNull, w).
Proof.
  intro H. unfold request_with_retry. replace (Z.to_nat m) with 0%nat by lia.
  reflexivity.
Qed.

(** When every attempt fails with a [RequestException], exactly [max_retries]
    requests are sent, separated by sleeps of 1, 2, 4, ... seconds, and the
    last exception is re-raised without a final sleep. *)
Theorem request_with_retry_exhausted server url n w :
  (forall i, (i <= n)%nat -> server (w_count w + i)%nat url = AReqExc) ->
  request_with_retry server url (Z.of_nat (S n)) w
  = (IErr RequestException,
     mkWorld (w_count w + S n) (w_trace w ++ failed_attempts url 0 n ++ [EGet url])).
Proof.
  intro Hfail. unfold request_with_retry. rewrite Nat2Z.id.
  rewrite (retry_skip server url _ n 0 (S n) w); [| lia | lia | intros; apply Hfail; lia].
  replace (S n - n)%nat with 1%nat by lia. cbn [retry_from Nat.add].
  unfold ibind at 1, http_get at 1. cbn [w_count w_trace].
  rewrite Hfail by lia.
  replace (Z.of_nat n <? Z.of_nat (S n) - 1)%Z with false by (symmetry; apply Z.ltb_ge; lia).
  unfold iraise. rewrite <- app_assoc. f_equal. f_equal. lia.
Qed.

(** An exception that is not a [RequestException] is not retried: it
    propagates right after the request that raised it. *)
Theorem request_with_retry_other_exception server url m k w :
  (Z.of_nat k < m)%Z ->
  (forall i, (i < k)%nat -> server (w_count w + i)%nat url = AReqExc) ->
  server (w_count w + k)%nat url = AOtherExc ->
  request_with_retry server url m w
  = (IErr OtherException,
     mkWorld (w_count w + S k) (w_trace w ++ failed_attempts url 0 k ++ [EGet url])).
Proof.
  intros Hk Hfail Hother. unfold request_with_retry.
  rewrite (retry_skip server url _ k 0 (Z.to_nat m) w); [| lia | lia | exact Hfail].
  destruct (Z.to_nat m - k)%nat as [|f] eqn:E; [lia|]. cbn [retry_from Nat.add].
  unfold ibind at 1, http_get at 1. cbn [w_count w_trace]. rewrite Hother.
  unfold iraise. rewrite <- app_assoc. f_equal. f_equal. lia.
Qed.

(** After [k] failed attempts ([k < max_retries]) a successful one returns its
    JSON; the requests are separated by the backoff sleeps [2 ^ i] and
    followed by the rate-limit sleep [self.delay]. *)
Theorem request_with_retry_success server url m k j w :
  (Z.of_nat k < m)%Z ->
  (forall i, (i < k)%nat -> server (w_count w + i)%nat url = AReqExc) ->
  server (w_count w + k)%nat url = AJson j ->
  request_with_retry server url m w
  = (IOk j, mkWorld (w_count w + S k)
                    (w_trace w ++ failed_attempts url 0 k ++ [EGet url; ESleep delay])).
Proof.
  intros Hk Hfail Hok. unfold request_with_retry.
  apply retry_success; [lia | lia | exact Hfail | exact Hok].
Qed.

Definition flaky_server (n : nat) (url : pystr) : outcome :=
  if (n <? 2)%nat then AReqExc else AJson (JNum 1).

Lemma request_with_retry_success_witness :
  request_with_retry flaky_server (u "x") 3 (mkWorld 0 [])
  = (IOk (JNum 1), mkWorld 3 (failed_attempts (u "x") 0 2 ++ [EGet (u "x"); ESleep delay])).
Proof.
  apply (request_with_retry_success flaky_server (u "x") 3 2 (JNum 1) (mkWorld 0 [])).
  - lia.
  - intros i Hi. unfold flaky_server. cbn [w_count]. destruct i as [|[|i]]; [reflexivity|reflexivity|lia].
  - reflexivity.
Defined.

Definition page_url (complex_no : pystr) (page : Z) : pystr :=
  articles_url complex_no page [] (u "RETAIL").

(** A page of the article listing as the API sends it. *)
Definition page_response (articles : list json) (more : bool) : json :=
  JObj [(u "articleList", JArr articles); (u "isMoreData", JBool more)].

(** Requests and sleeps of [n] pages fetched at the first attempt from [page]. *)
Fixpoint page_events (complex_no : pystr) (page : Z) (n : nat) : list event :=
  match n with
  | O => []
  | S n' => EGet (page_url complex_no page) :: ESleep delay
            :: page_events complex_no (page + 1)%Z n'
  end.


Lemma page_response_get a b :
  json_get (page_response a b) (u "articleList") (JArr []) = Ok (JArr a) /\
  json_get (page_response a b) (u "isMoreData") (JBool false) = Ok (JBool b).
Proof.
  unfold json_get, page_response, dict_get_default. cbn [dict_get].
  rewrite pystr_eqb_refl.
  replace (pystr_eqb (u "isMoreData") (u "articleList")) with false by (vm_compute; reflexivity).
  rewrite pystr_eqb_refl. split; reflexivity.
Qed.

Lemma get_articles_page server c p a b w :
  server (w_count w) (page_url c p) = AJson (page_response a b) ->
  get_articles server c p [] (u "RETAIL") w
  = (IOk (JArr a, JBool b),
     mkWorld (S (w_count w)) (w_trace w ++ [EGet (page_url c p); ESleep delay])).
Proof.
  unfold page_url. intro H. unfold get_articles, request_with_retry.
  change (Z.to_nat 3) with 3%nat.
  unfold ibind at 1.
  rewrite (retry_success server (articles_url c p [] (u "RETAIL")) 3 (page_response a b) 0 0 3 w);
    [| lia | lia | intros; lia |].
  - cbn [failed_attempts app]. rewrite Nat.add_1_r.
    destruct (page_response_get a b) as [E1 E2].
    unfold ibind. rewrite E1. cbn [ilift]. unfold iret at 1. rewrite E2. reflexivity.
  - rewrite Nat.add_0_r. exact H.
Qed.

Lemma pages_from_run server c last more_last : forall pages p acc fuel w,
  (List.length pages < fuel)%nat -> Forall (fun l => l <> []) pages ->
  (forall i, (i < List.length pages)%nat ->
     server (w_count w + i)%nat (page_url c (p + Z.of_nat i)%Z)
     = AJson (page_response (nth i pages []) true)) ->
  server (w_count w + List.length pages)%nat (page_url c (p + Z.of_nat (List.length pages))%Z)
  = AJson (page_response last more_last) ->
  (last = [] \/ more_last = false) ->
  pages_from server c p acc fuel w
  = (IOk (Some (acc ++ List.concat pages ++ last)),
     mkWorld (w_count w + S (List.length pages))
             (w_trace w ++ page_events c p (S (List.length pages)))).
Proof.
  induction pages as [|l pages IH]; intros p acc fuel w Hf Hne Hpages Hlast Hstop;
    destruct fuel as [|fuel]; try (cbn [List.length] in Hf; lia).
  - cbn [pages_from]. unfold ibind at 1.
    cbn [List.length] in Hlast. rewrite Nat.add_0_r, Z.add_0_r in Hlast.
    rewrite (get_articles_page server c p last more_last w Hlast).
    cbn [List.concat List.length page_events]. rewrite app_nil_l, Nat.add_1_r.
    destruct Hstop as [Hs | Hs]; subst.
    + cbv beta iota. cbn [jtruthy negb]. unfold iret. rewrite app_nil_r. reflexivity.
    + destruct last as [|x xs]; cbv beta iota; cbn [jtruthy negb extend_items ilift];
        unfold iret; [rewrite app_nil_r; reflexivity|].
      unfold ibind, iret. reflexivity.
  - inversion Hne as [|? ? Hl Hne']; subst.
    cbn [pages_from]. unfold ibind at 1.
    assert (H0 := Hpages 0%nat ltac:(cbn; lia)). rewrite Nat.add_0_r, Z.add_0_r in H0.
    cbn [nth] in H0.
    rewrite (get_articles_page server c p l true w H0).
    destruct l as [|x xs]; [congruence|].
    cbv beta iota. cbn [jtruthy negb extend_items ilift]. unfold ibind at 1, iret at 1.
    cbv beta iota. cbn [w_count w_trace].
    rewrite (IH (p + 1)%Z); cbn [w_count w_trace].
    + f_equal.
      * cbn [List.concat]. rewrite <- !app_assoc. reflexivity.
      * f_equal; [cbn [List.length]; lia|]. cbn [page_events]. rewrite <- app_assoc. reflexivity.
    + cbn [List.length] in Hf. lia.
    + exact Hne'.
    + intros i Hi. replace (S (w_count w) + i)%nat with (w_count w + S i)%nat by lia.
      replace (p + 1 + Z.of_nat i)%Z with (p + Z.of_nat (S i))%Z by lia.
      apply (Hpages (S i)). cbn; lia.
    + cbn [List.length] in Hlast.
      replace (S (w_count w) + List.length pages)%nat
        with (w_count w + S (List.length pages))%nat by lia.
      replace (p + 1 + Z.of_nat (List.length pages))%Z
        with (p + Z.of_nat (S (List.length pages)))%Z by lia.
      exact Hlast.
    + exact Hstop.
Qed.



(** Pagination: the pages are requested in order from page 1; the article lists
    of the pages are concatenated, up to the first page whose list is empty
    or whose [isMoreData] is false. *)
Theorem get_all_articles_for_complex_pages server c pages last more_last fuel w :
  (List.length pages < fuel)%nat ->
  Forall (fun l => l <> []) pages ->
  (forall i, (i < List.length pages)%nat ->
     server (w_count w + i)%nat (page_url c (Z.of_nat i + 1))
     = AJson (page_response (nth i pages []) true)) ->
  server (w_count w + List.length pages)%nat (page_url c (Z.of_nat (List.length pages) + 1))
  = AJson (page_response last more_last) ->
  (last = [] \/ more_last = false) ->
  get_all_articles_for_complex server c fuel w
  = (IOk (Some (List.concat pages ++ last)),
     mkWorld (w_count w + S (List.length pages))
             (w_trace w ++ page_events c 1 (S (List.length pages)))).
Proof.
  intros Hf Hne Hpages Hlast Hstop. unfold get_all_articles_for_complex.
  apply (pages_from_run server c last more_last pages 1 [] fuel w Hf Hne).
  - intros i Hi. rewrite Z.add_comm. apply Hpages; exact Hi.
  - rewrite Z.add_comm. exact Hlast.
  - exact Hstop.
Qed.


Definition failing_server (n : nat) (url : pystr) : outcome := AReqExc.

Definition erroring_server (n : nat) (url : pystr) : outcome :=
  if (n <? 1)%nat then AReqExc else AOtherExc.

Definition paged_server (n : nat) (url : pystr) : outcome :=
  match n with
  | O => AJson (page_response [JNum 1; JNum 2] true)
  | 1%nat => AJson (page_response [JNum 3] false)
  | _ => AReqExc
  end.


Lemma request_with_retry_nonpositive_witness :
  request_with_retry failing_server (u "x") 0 (mkWorld 0 []) = (IOk JNull, mkWorld 0 []).
Proof.
  apply (request_with_retry_nonpositive failing_server (u "x") 0 (mkWorld 0 [])). lia.
Defined.

Lemma request_with_retry_exhausted_witness :
  request_with_retry failing_server (u "x") 3 (mkWorld 0 [])
  = (IErr RequestException, mkWorld 3 (failed_attempts (u "x") 0 2 ++ [EGet (u "x")])).
Proof.
  apply (request_with_retry_exhausted failing_server (u "x") 2 (mkWorld 0 [])).
  intros i Hi. reflexivity.
Defined.

Lemma request_with_retry_other_exception_witness :
  request_with_retry erroring_server (u "x") 3 (mkWorld 0 [])
  = (IErr OtherException, mkWorld 2 (failed_attempts (u "x") 0 1 ++ [EGet (u "x")])).
Proof.
  apply (request_with_retry_other_exception erroring_server (u "x") 3 1 (mkWorld 0 [])).
  - lia.
  - intros i Hi. destruct i as [|i]; [reflexivity|lia].
  - reflexivity.
Defined.

Lemma get_all_articles_for_complex_pages_witness :
  get_all_articles_for_complex paged_server (u "1234") 5 (mkWorld 0 [])
  = (IOk (Some [JNum 1; JNum 2; JNum 3]), mkWorld 2 (page_events (u "1234") 1 2)).
Proof.
  apply (get_all_articles_for_complex_pages paged_server (u "1234") [[JNum 1; JNum 2]]
           [JNum 3] false 5 (mkWorld 0 [])).
  - cbn. lia.
  - repeat constructor. discriminate.
  - intros i Hi. destruct i as [|i]; [reflexivity|cbn in Hi; lia].
  - reflexivity.
  - right. reflexivity.
Defined.

